(** * sms_receiver: the Twilio SMS webhook handler

    A shallow embedding of [handleSMS] and [saveSMS] (main.go), of the
    length-enforcing variant [smsHandler], and of the [sms_messages] table,
    together with the properties of the field extraction and of the
    persistence path.

    Go strings are byte sequences: they are [string] here (a list of 8-bit
    [ascii]).  [url.Values] and [http.Header] are [map[string][]string]:
    they are [gmap string (list string)]. *)

From Stdlib Require Import ZArith Ascii String Bool Lia.
From stdpp Require Import gmap strings list.

Local Open Scope Z_scope.

(** ** Go values shared by the packages below *)

(** The [error] values that reach the handler.  Their [Error()] text is
    not modelled; a log line that formats one with [%v] keeps the value. *)
Inductive error : Type :=
| EscapeError (s : string)        (* url.EscapeError: malformed %-escape *)
| ErrSemicolon                    (* "invalid semicolon separator in query" *)
| ErrPostTooLarge                 (* "http: POST too large" *)
| ErrTooManyParams                (* "number of URL query parameters exceeded limit" *)
| ErrMediaType                    (* mime.ParseMediaType rejected the header *)
| ErrDriver (msg : string)        (* whatever the SQL driver reports *)
| ErrWrite (msg : string).        (* the connection refused the response bytes *)

(** [map[string][]string] *)
Abbreviation Values := (gmap string (list string)).

(** The double quote and the line feed, for literals that contain them. *)
Definition dquote : string := String (ascii_of_nat 34) EmptyString.
Definition newline : string := String (ascii_of_nat 10) EmptyString.

(** ** Package strings *)
Module strings.

(** [strings.TrimPrefix(s, "?")]-style removal of a one-byte prefix. *)
Definition TrimPrefix (s : string) (prefix : ascii) : string :=
  match s with
  | String c rest => if Ascii.eqb c prefix then rest else s
  | EmptyString => s
  end.

(** [strings.Cut(s, sep)] for a one-byte separator: the text before the
    first [sep], the text after it, and whether [sep] was found. *)
Fixpoint Cut (s : string) (sep : ascii) : string * string * bool :=
  match s with
  | EmptyString => (EmptyString, EmptyString, false)
  | String c rest =>
      if Ascii.eqb c sep then (EmptyString, rest, true)
      else let '(before, after, found) := Cut rest sep in
           (String c before, after, found)
  end.

(** [strings.Contains(s, c)] for a one-byte needle. *)
Fixpoint Contains (s : string) (c : ascii) : bool :=
  match s with
  | EmptyString => false
  | String d rest => Ascii.eqb d c || Contains rest c
  end.

(** [strings.Count(s, sep)] for a one-byte separator. *)
Fixpoint Count (s : string) (sep : ascii) : nat :=
  match s with
  | EmptyString => O
  | String c rest => if Ascii.eqb c sep then S (Count rest sep) else Count rest sep
  end.

(** The pieces of [s] between occurrences of [sep], in order: what the
    loop [for s != "" { piece, s, _ = strings.Cut(s, sep) ... }] visits,
    with one more, empty, piece at the end when [s] is empty or ends in
    [sep] (see [pieces_Cut]). *)
Fixpoint pieces (s : string) (sep : ascii) : list string :=
  match s with
  | EmptyString => [EmptyString]
  | String c rest =>
      if Ascii.eqb c sep then EmptyString :: pieces rest sep
      else match pieces rest sep with
           | p :: ps => String c p :: ps
           | [] => [String c EmptyString]
           end
  end.

End strings.

(** ** Package net/url *)
Module url.

Definition byte_in (lo hi c : ascii) : bool :=
  (N.leb (N_of_ascii lo) (N_of_ascii c)) && (N.leb (N_of_ascii c) (N_of_ascii hi)).

Definition ishex (c : ascii) : bool :=
  byte_in "0" "9" c || byte_in "a" "f" c || byte_in "A" "F" c.

(** [unhex] is applied to hex digits only; Go panics on another byte. *)
Definition unhex (c : ascii) : N :=
  if byte_in "0" "9" c then (N_of_ascii c - N_of_ascii "0")%N
  else if byte_in "a" "f" c then (N_of_ascii c - N_of_ascii "a" + 10)%N
  else if byte_in "A" "F" c then (N_of_ascii c - N_of_ascii "A" + 10)%N
  else 0%N.

(** At most the first three bytes of [s]: the text an [EscapeError] carries. *)
Definition first3 (s : string) : string :=
  match s with
  | String a (String b (String c _)) => String a (String b (String c EmptyString))
  | _ => s
  end.

(** First pass of [unescape] in query-component mode: every [%] must be
    followed by two hex digits. *)
Fixpoint checkEscapes (s : string) : option error :=
  match s with
  | EmptyString => None
  | String c rest =>
      if Ascii.eqb c "%" then
        match rest with
        | String h1 (String h2 rest') =>
            if ishex h1 && ishex h2 then checkEscapes rest'
            else Some (EscapeError (first3 s))
        | _ => Some (EscapeError (first3 s))
        end
      else checkEscapes rest
  end.

(** Second pass of [unescape]: [%XY] becomes the byte [XY], [+] becomes a
    space, any other byte is copied. *)
Fixpoint decode (s : string) : string :=
  match s with
  | EmptyString => EmptyString
  | String c rest =>
      if Ascii.eqb c "%" then
        match rest with
        | String h1 (String h2 rest') =>
            String (ascii_of_N (N.lor (N.shiftl (unhex h1) 4) (unhex h2))) (decode rest')
        | _ => EmptyString
        end
      else if Ascii.eqb c "+" then String " " (decode rest)
      else String c (decode rest)
  end.

(** [url.QueryUnescape] *)
Definition QueryUnescape (s : string) : string * option error :=
  match checkEscapes s with
  | Some e => (EmptyString, Some e)
  | None => (decode s, None)
  end.

(** [Values.Get]: the first value stored under [key], or the empty string. *)
Definition Get (v : Values) (key : string) : string :=
  match v !! key with
  | Some (x :: _) => x
  | _ => EmptyString
  end.

(** One turn of the loop of [parseQuery] on the piece [key]. *)
Definition parseQuery_step (acc : Values * option error) (key : string)
  : Values * option error :=
  let '(m, err) := acc in
  if strings.Contains key ";" then (m, Some ErrSemicolon)
  else if String.eqb key EmptyString then (m, err)
  else
    let '(key, value, _) := strings.Cut key "=" in
    match QueryUnescape key with
    | (_, Some err1) => (m, if err is Some _ then err else Some err1)
    | (key, None) =>
        match QueryUnescape value with
        | (_, Some err1) => (m, if err is Some _ then err else Some err1)
        | (value, None) => (<[key := default [] (m !! key) ++ [value]]> m, err)
        end
    end.

(** The default of [urlmaxqueryparams]: the largest number of parameters
    [parseQuery] accepts. *)
Definition defaultMaxParams : Z := 10000.

(** [urlParamsWithinMax(params)] under the default setting. *)
Definition urlParamsWithinMax (params : Z) : bool := params <=? defaultMaxParams.

(** [url.ParseQuery]: a query string with more than 10000 parameters
    ([strings.Count(query, "&") + 1]) is refused before anything is parsed;
    otherwise the loop of [parseQuery] runs over the pieces between [&]
    (an empty piece is skipped by the loop body, like the one the Go loop
    never reaches), and the values parsed so far are returned with the
    error. *)
Definition ParseQuery (query : string) : Values * option error :=
  if negb (urlParamsWithinMax (Z.of_nat (strings.Count query "&") + 1))
  then (∅, Some ErrTooManyParams)
  else fold_left parseQuery_step (strings.pieces query "&") (∅, None).

End url.

(** ** Package net/http: the parts of [Request] and [ResponseWriter] the
    handlers use.  The router dispatches only [POST /sms] to a handler, so
    the method is not a field. *)
Module http.

Inductive MediaKind : Type :=
| FormURLEncoded        (* application/x-www-form-urlencoded *)
| MultipartFormData     (* multipart/form-data *)
| OtherMedia.

Record Request : Type := {
  MediaType : MediaKind;           (* mime.ParseMediaType of Content-Type ... *)
  MediaTypeErr : option error;     (* ... and the error it returned *)
  Body : string;                   (* the raw bytes of the request body *)
  RawQuery : string                (* r.URL.RawQuery *)
}.

Definition StatusOK : Z := 200.
Definition StatusBadRequest : Z := 400.
Definition StatusInternalServerError : Z := 500.

(** [10 << 20]: the largest form body [parsePostForm] accepts. *)
Definition maxFormSize : Z := Z.shiftl 10 20.

Definition parsePostForm (r : Request) : Values * option error :=
  match MediaType r with
  | FormURLEncoded =>
      if maxFormSize <? Z.of_nat (String.length (Body r)) then (∅, Some ErrPostTooLarge)
      else
        let '(vs, e) := url.ParseQuery (Body r) in
        (vs, if MediaTypeErr r is Some _ then MediaTypeErr r else e)
  | _ => (∅, MediaTypeErr r)
  end.

(** [r.ParseForm()]: the resulting [r.PostForm] and the returned error.
    [r.Form] is filled too, but no handler reads it; the URL query is
    parsed for it and its error is reported when the body gave none. *)
Definition ParseForm (r : Request) : Values * option error :=
  let '(PostForm, err) := parsePostForm r in
  let '(_, e) := url.ParseQuery (RawQuery r) in
  (PostForm, if err is Some _ then err else e).

(** [r.PostFormValue(key)] once [r.PostForm] is set. *)
Definition PostFormValue (PostForm : Values) (key : string) : string :=
  match PostForm !! key with
  | Some (x :: _) => x
  | _ => EmptyString
  end.

(** What a handler has handed to its [http.ResponseWriter]. *)
Record ResponseWriter : Type := {
  Header : gmap string (list string);
  Status : option Z;               (* None: WriteHeader not called yet *)
  Written : string
}.

Definition NewResponseWriter : ResponseWriter :=
  {| Header := ∅; Status := None; Written := EmptyString |}.

Definition Header_Set (w : ResponseWriter) (key value : string) : ResponseWriter :=
  {| Header := <[key := [value]]> (Header w); Status := Status w; Written := Written w |}.

Definition WriteHeader (w : ResponseWriter) (code : Z) : ResponseWriter :=
  {| Header := Header w;
     Status := if Status w is Some _ then Status w else Some code;
     Written := Written w |}.

Definition Write (w : ResponseWriter) (b : string) : ResponseWriter :=
  {| Header := Header w;
     Status := if Status w is Some _ then Status w else Some StatusOK;
     Written := Written w +:+ b |}.

(** [http.Error(w, msg, code)]: a plain-text reply, the message followed
    by a line feed. *)
Definition Error (w : ResponseWriter) (msg : string) (code : Z) : ResponseWriter :=
  let w := Header_Set w "Content-Type" "text/plain; charset=utf-8" in
  let w := Header_Set w "X-Content-Type-Options" "nosniff" in
  let w := WriteHeader w code in
  Write w (msg +:+ newline).

End http.

(** ** Package time *)
Module time.

Inductive Location : Type := Local | UTC.

(** An instant (nanoseconds since the epoch) and the zone it is shown in. *)
Record Time : Type := { instant : Z; location : Location }.

(** [time.Now()] returns the current local time. *)
Definition Now (clock : Z) : Time := {| instant := clock; location := Local |}.

(** [t.UTC()]: the same instant with the location set to UTC. *)
Definition toUTC (t : Time) : Time := {| instant := instant t; location := UTC |}.

End time.

(** ** The process: log, database handle, environment *)

(** A formatted log line: its text, and the error a final [%v] renders. *)
Inductive Msg : Type :=
| Text (s : string)
| TextErr (s : string) (e : error).

(** A row of
    [CREATE TABLE sms_messages (id BIGINT AUTO_INCREMENT PRIMARY KEY,
     message_sid VARCHAR(50) NOT NULL, from_number VARCHAR(15) NOT NULL,
     body TEXT NOT NULL, received_at DATETIME NOT NULL)]:
    the surrogate key and the four parameters of the INSERT as passed. *)
Record Row : Type := {
  id : Z;
  message_sid : string;
  from_number : string;
  body : string;
  received_at : time.Time
}.

(** A statement sent through the handle, with its bound parameters:
    [INSERT INTO sms_messages (message_sid, from_number, body, received_at)
     VALUES (?, ?, ?, ?)] is the only one in the program. *)
Inductive Stmt : Type :=
| Insert (a_sid a_from a_body : string) (a_at : time.Time).

(** The global [db] handle: the table, its AUTO_INCREMENT counter and the
    statements executed on the handle so far, oldest first. *)
Record DB : Type := {
  sms_messages : list Row;
  auto_increment : Z;
  statements : list Stmt
}.

Record World : Type := {
  db : DB;
  log : list Msg
}.

(** What a run cannot decide by itself: the clock reading of its
    [time.Now()], the error the driver reports for the statement sent after
    n earlier ones, and the error of the final [w.Write]. *)
Record Env : Type := {
  Clock : Z;
  Faults : nat -> option error;
  WriteErr : option error
}.

(** [log.Printf] with the line already formatted. *)
Definition log_Printf (line : Msg) (st : World) : World :=
  {| db := db st; log := log st ++ [line] |}.

(** [fmt.Sprintf(prefix + "%v", err)] *)
Definition Sprintf_v (prefix : string) (err : error) : Msg := TextErr prefix err.

(** [logError]: [log.Printf("[%s] %s", errorType, message)] *)
Definition logError (errorType : string) (message : Msg) (st : World) : World :=
  let head := "[" +:+ errorType +:+ "] " in
  log_Printf (match message with
              | Text s => Text (head +:+ s)
              | TextErr s e => TextErr (head +:+ s) e
              end) st.

(** [SMSMessage] *)
Record SMSMessage : Type := {
  MessageSID : string;
  FromNumber : string;
  Body : string;
  ReceivedAt : time.Time
}.

(** [db.Exec] of the INSERT: one statement; when the driver reports an
    error the table is left as it was, otherwise one row is appended under
    the next key.  The table has no key but [id], so an accepted INSERT
    never collides with a row already there. *)
Definition Exec_insert (env : Env) (d : DB)
    (a_sid a_from a_body : string) (a_at : time.Time) : DB * option error :=
  let executed := statements d ++ [Insert a_sid a_from a_body a_at] in
  match Faults env (length (statements d)) with
  | Some e =>
      ({| sms_messages := sms_messages d;
          auto_increment := auto_increment d;
          statements := executed |}, Some e)
  | None =>
      ({| sms_messages := sms_messages d ++
            [{| id := auto_increment d; message_sid := a_sid;
                from_number := a_from; body := a_body; received_at := a_at |}];
          auto_increment := auto_increment d + 1;
          statements := executed |}, None)
  end.

(** [saveSMS] *)
Definition saveSMS (env : Env) (sms : SMSMessage) (d : DB) : DB * option error :=
  Exec_insert env d (MessageSID sms) (FromNumber sms) (Body sms) (ReceivedAt sms).

(** ** main.go: [handleSMS] *)

Definition twimlResponse : string :=
  "<?xml version=" +:+ dquote +:+ "1.0" +:+ dquote +:+ " encoding=" +:+ dquote
    +:+ "UTF-8" +:+ dquote +:+ "?>" +:+ newline +:+
  "<Response>" +:+ newline +:+
  "    <Message>Message received! Thank you.</Message>" +:+ newline +:+
  "</Response>".

(** The extraction block of [handleSMS] (from "Extract parameters from
    direct form fields" to the end of "Fallback"): the error of the nested
    parse, or the three variables [messageSID], [fromNumber], [body] as
    they stand when validation starts. *)
Definition extractParams (PostForm : Values) : error + (string * string * string) :=
  let messageSID := http.PostFormValue PostForm "MessageSid" in
  let messageSID :=
    if String.eqb messageSID "" then http.PostFormValue PostForm "messagesid"
    else messageSID in
  let fromNumber := http.PostFormValue PostForm "From" in
  let fromNumber :=
    if String.eqb fromNumber "" then http.PostFormValue PostForm "from"
    else fromNumber in
  let body := http.PostFormValue PostForm "Body" in
  let body :=
    if String.eqb body "" then http.PostFormValue PostForm "body" else body in
  if String.eqb messageSID "" || String.eqb fromNumber "" || String.eqb body "" then
    let bodyParam := http.PostFormValue PostForm "body" in
    if negb (String.eqb bodyParam "") then
      let bodyParam := strings.TrimPrefix bodyParam "?" in
      match url.ParseQuery bodyParam with
      | (_, Some err) => inl err
      | (parsed, None) =>
          let messageSID :=
            if String.eqb messageSID "" then
              let messageSID := url.Get parsed "MessageSid" in
              if String.eqb messageSID "" then url.Get parsed "messagesid"
              else messageSID
            else messageSID in
          let fromNumber :=
            if String.eqb fromNumber "" then
              let fromNumber := url.Get parsed "From" in
              if String.eqb fromNumber "" then url.Get parsed "from"
              else fromNumber
            else fromNumber in
          let body :=
            if String.eqb body "" then
              let body := url.Get parsed "Body" in
              if String.eqb body "" then url.Get parsed "body" else body
            else body in
          inr (messageSID, fromNumber, body)
      end
    else inr (messageSID, fromNumber, body)
  else inr (messageSID, fromNumber, body).

(** [fmt.Sprintf("Missing required fields: MessageSid=%s, From=%s, Body=%s", ...)] *)
Definition missingFieldsMessage (messageSID fromNumber body : string) : string :=
  "Missing required fields: MessageSid=" +:+ messageSID +:+ ", From=" +:+ fromNumber
    +:+ ", Body=" +:+ body.

(** [handleSMS(w, r)]: what was written to [w], and the process state
    after the call. *)
Definition handleSMS (env : Env) (r : http.Request) (st : World)
  : http.ResponseWriter * World :=
  let w := http.NewResponseWriter in
  match http.ParseForm r with
  | (_, Some err) =>
      let st := logError "WEBHOOK_INVALID_FORM"
                  (Sprintf_v "Failed to parse form data: " err) st in
      (http.Error w "Invalid form data" http.StatusBadRequest, st)
  | (PostForm, None) =>
      match extractParams PostForm with
      | inl err =>
          let st := logError "WEBHOOK_INVALID_BODY"
                      (Sprintf_v "Failed to parse body parameter: " err) st in
          (http.Error w "Invalid body parameter" http.StatusBadRequest, st)
      | inr (messageSID, fromNumber, body) =>
          if String.eqb messageSID "" || String.eqb fromNumber "" || String.eqb body "" then
            let st := logError "WEBHOOK_NO_INPUT"
                        (Text (missingFieldsMessage messageSID fromNumber body)) st in
            (http.Error w "Missing required fields" http.StatusBadRequest, st)
          else
            let sms := {| MessageSID := messageSID; FromNumber := fromNumber;
                          Body := body; ReceivedAt := time.Now (Clock env) |} in
            let '(d, err) := saveSMS env sms (db st) in
            let st := {| db := d; log := log st |} in
            match err with
            | Some err =>
                let st := logError "DB_SAVE_ERROR"
                            (Sprintf_v "Failed to save SMS to database: " err) st in
                (http.Error w "Failed to save message" http.StatusInternalServerError, st)
            | None =>
                let st := log_Printf
                            (Text ("Saved SMS from " +:+ fromNumber +:+ ": " +:+ body)) st in
                let w := http.Header_Set w "Content-Type" "application/xml" in
                let w := http.WriteHeader w http.StatusOK in
                let w := http.Write w twimlResponse in
                match WriteErr env with
                | Some err =>
                    (w, logError "WEBHOOK_RESPONSE_ERROR"
                          (Sprintf_v "Error writing TwiML response: " err) st)
                | None => (w, st)
                end
            end
      end
  end.

(** ** The length-enforcing variant: [smsHandler] *)

Definition smsHandler (env : Env) (r : http.Request) (st : World)
  : http.ResponseWriter * World :=
  let w := http.NewResponseWriter in
  match http.ParseForm r with
  | (_, Some err) => (http.Error w "Invalid form data" http.StatusBadRequest, st)
  | (PostForm, None) =>
      let from := http.PostFormValue PostForm "From" in
      let body := http.PostFormValue PostForm "Body" in
      let messageSid := http.PostFormValue PostForm "MessageSid" in
      if String.eqb from "" || String.eqb body "" || String.eqb messageSid "" then
        (http.Error w "Missing required fields" http.StatusBadRequest, st)
      else if (1600 <? Z.of_nat (String.length body))
              || (15 <? Z.of_nat (String.length from))
              || (50 <? Z.of_nat (String.length messageSid)) then
        (http.Error w "Input length exceeded" http.StatusBadRequest, st)
      else
        let timestamp := time.toUTC (time.Now (Clock env)) in
        let '(d, err) := Exec_insert env (db st) messageSid from body timestamp in
        let st := {| db := d; log := log st |} in
        match err with
        | Some err =>
            (http.Error w "Internal server error" http.StatusInternalServerError, st)
        | None =>
            let w := http.WriteHeader w http.StatusOK in
            (http.Write w "Message stored successfully", st)
        end
  end.

(** ** Sample runs *)

Definition emptyWorld : World :=
  {| db := {| sms_messages := []; auto_increment := 1; statements := [] |}; log := [] |}.

(** A form-encoded POST without URL query. *)
Definition formPost (b : string) : http.Request :=
  {| http.MediaType := http.FormURLEncoded; http.MediaTypeErr := None;
     http.Body := b; http.RawQuery := "" |}.

(** A run in which the driver and the connection report no error. *)
Definition calmEnv (clock : Z) : Env :=
  {| Clock := clock; Faults := fun _ => None; WriteErr := None |}.

(** A run in which the driver refuses every statement. *)
Definition downEnv (clock : Z) : Env :=
  {| Clock := clock; Faults := fun _ => Some (ErrDriver "connection refused");
     WriteErr := None |}.

(** A driver that refuses the first statement only. *)
Definition flakyEnv (clock : Z) : Env :=
  {| Clock := clock;
     Faults := fun n => match n with O => Some (ErrDriver "connection refused") | _ => None end;
     WriteErr := None |}.

(** A message identifier of 51 bytes. *)
Definition longSid : string :=
  "SM0123456789012345678901234567890123456789012345678".

(** ** Vocabulary of the statements *)

(** [messageSID == "" || fromNumber == "" || body == ""] *)
Definition anyEmpty (a b c : string) : bool :=
  String.eqb a "" || String.eqb b "" || String.eqb c "".

(** [a], unless it is empty, then [b]: the shape of the two-key lookups. *)
Definition orElse (a b : string) : string := if String.eqb a "" then b else a.

(** The three fields with which a request reaches "Create SMS message
    struct" in [handleSMS], if it does. *)
Definition validated (r : http.Request) : option (string * string * string) :=
  match http.ParseForm r with
  | (PostForm, None) =>
      match extractParams PostForm with
      | inr (messageSID, fromNumber, body) =>
          if anyEmpty messageSID fromNumber body then None
          else Some (messageSID, fromNumber, body)
      | inl _ => None
      end
  | (_, Some _) => None
  end.

(** The rows of the table after a run of a handler, and the reply. *)
Definition tableAfter (out : http.ResponseWriter * World) : list Row :=
  sms_messages (db (snd out)).
Definition statementsAfter (out : http.ResponseWriter * World) : list Stmt :=
  statements (db (snd out)).
Definition statusOf (out : http.ResponseWriter * World) : option Z :=
  http.Status (fst out).
Definition bodyOf (out : http.ResponseWriter * World) : string :=
  http.Written (fst out).
Definition contentTypeOf (out : http.ResponseWriter * World) : option (list string) :=
  http.Header (fst out) !! "Content-Type".

(** "A row is written" by the run of [handleSMS] on [r]. *)
Definition rowWritten (env : Env) (r : http.Request) (st : World) : Prop :=
  exists row, tableAfter (handleSMS env r st) = sms_messages (db st) ++ [row].

(** The acknowledgment as the specification spells it, on one line. *)
Definition ackOneLine : string :=
  "<?xml version=" +:+ dquote +:+ "1.0" +:+ dquote +:+ " encoding=" +:+ dquote
    +:+ "UTF-8" +:+ dquote +:+ "?>"
    +:+ "<Response><Message>Message received! Thank you.</Message></Response>".

(** [s] without its line feeds and without the spaces that indent a line. *)
Fixpoint dropLayout (indent : bool) (s : string) : string :=
  match s with
  | EmptyString => EmptyString
  | String c rest =>
      if Ascii.eqb c (ascii_of_nat 10) then dropLayout true rest
      else if indent && Ascii.eqb c " " then dropLayout true rest
      else String c (dropLayout false rest)
  end.

(** [len(body) > 1600 || len(from) > 15 || len(messageSid) > 50] *)
Definition tooLong (messageSid from body : string) : bool :=
  (1600 <? Z.of_nat (String.length body))
  || (15 <? Z.of_nat (String.length from))
  || (50 <? Z.of_nat (String.length messageSid)).

(** The three fields with which a request reaches the INSERT of
    [smsHandler], if it does. *)
Definition accepted (r : http.Request) : option (string * string * string) :=
  match http.ParseForm r with
  | (PostForm, None) =>
      let from := http.PostFormValue PostForm "From" in
      let body := http.PostFormValue PostForm "Body" in
      let messageSid := http.PostFormValue PostForm "MessageSid" in
      if anyEmpty from body messageSid then None
      else if tooLong messageSid from body then None
      else Some (messageSid, from, body)
  | (_, Some _) => None
  end.

(** The three client-supplied columns of a row. *)
Definition fieldsOf (row : Row) : string * string * string :=
  (message_sid row, from_number row, body row).

(** ** The sender's side of the form encoding *)

(** [url.QueryEscape], with which a client encodes a field value. *)
Module urlencode.

Definition upperhex (n : N) : ascii :=
  default "0"%char (String.get (N.to_nat n) "0123456789ABCDEF").

(** [shouldEscape(c, encodeQueryComponent)]: everything but the
    unreserved bytes. *)
Definition shouldEscape (c : ascii) : bool :=
  if url.byte_in "a" "z" c || url.byte_in "A" "Z" c || url.byte_in "0" "9" c then false
  else if Ascii.eqb c "-" || Ascii.eqb c "_" || Ascii.eqb c "." || Ascii.eqb c "~"
  then false
  else true.

Fixpoint QueryEscape (s : string) : string :=
  match s with
  | EmptyString => EmptyString
  | String c rest =>
      if shouldEscape c then
        if Ascii.eqb c " " then String "+" (QueryEscape rest)
        else String "%"
               (String (upperhex (N.shiftr (N_of_ascii c) 4))
                  (String (upperhex (N.land (N_of_ascii c) 15)) (QueryEscape rest)))
      else String c (QueryEscape rest)
  end.

End urlencode.

(** A field value as it may stand between [=] and the next [&] of a form
    body that parses: no [&], no [;], every [%] followed by two hex
    digits. *)
Definition cleanField (s : string) : bool :=
  negb (strings.Contains s "&") && negb (strings.Contains s ";")
  && (if url.checkEscapes s is None then true else false).

(** The form body that carries the three provider fields, already
    encoded, in the provider's order. *)
Definition smsForm (messageSid from body : string) : string :=
  "MessageSid=" +:+ messageSid +:+ "&From=" +:+ from +:+ "&Body=" +:+ body.

(** [strings.Join(elems, sep)] for a one-byte separator. *)
Fixpoint Join (elems : list string) (sep : ascii) : string :=
  match elems with
  | [] => EmptyString
  | [e] => e
  | e :: rest => e +:+ String sep (Join rest sep)
  end.

(** The request [r] sent to another URL query. *)
Definition withQuery (r : http.Request) (q : string) : http.Request :=
  {| http.MediaType := http.MediaType r; http.MediaTypeErr := http.MediaTypeErr r;
     http.Body := http.Body r; http.RawQuery := q |}.

(** ** Requests handled one after the other *)

Definition Handler : Type := Env -> http.Request -> World -> http.ResponseWriter * World.

(** The process state after the handler has served the runs in order, each
    run with its own clock reading and driver behaviour. *)
Fixpoint serve (h : Handler) (runs : list (Env * http.Request)) (st : World) : World :=
  match runs with
  | [] => st
  | (env, r) :: rest => serve h rest (snd (h env r st))
  end.

(** The widths of the columns: [message_sid VARCHAR(50)],
    [from_number VARCHAR(15)], and the 1600 bytes [smsHandler] allows for
    [body]. *)
Definition fitsColumns (row : Row) : Prop :=
  (0 < String.length (message_sid row) <= 50)%nat /\
  (0 < String.length (from_number row) <= 15)%nat /\
  (0 < String.length (body row) <= 1600)%nat.

(** No column of the row is empty. *)
Definition complete (row : Row) : Prop :=
  message_sid row <> "" /\ from_number row <> "" /\ body row <> "".

(** The statement that wrote a row. *)
Definition insertOf (row : Row) : Stmt :=
  Insert (message_sid row) (from_number row) (body row) (received_at row).

(** ** main.go: [main] *)

Module os.

(** [os.Getenv]: the value of the variable, empty when it is not set. *)
Definition Getenv (environ : gmap string string) (key : string) : string :=
  default "" (environ !! key).

(** What [os.Stat] reports about a path, as far as [os.IsNotExist] can
    tell. *)
Inductive StatOutcome : Type :=
| Found
| NotExist
| StatFailed.       (* another error, such as permission denied *)

End os.

(** What the start of the process finds around it. *)
Record Host : Type := {
  DotenvErr : option error;               (* godotenv.Load() *)
  Environ : gmap string string;           (* the environment once .env is loaded *)
  OpenErr : string -> option error;       (* sql.Open("mysql", dsn) *)
  PingErr : option error;                 (* db.Ping() *)
  Stat : string -> os.StatOutcome;        (* os.Stat(path) *)
  ListenErr : option error                (* what ListenAndServeTLS returns *)
}.

(** What the start of the process does, in order. *)
Inductive Event : Type :=
| Logged (line : Msg)
| SqlOpen (dsn : string)
| DbPing
| StatFile (path : string)
| ListenAndServeTLS (addr certFile keyFile : string)
| DbClose
| OsExit (code : Z).

(** The line [logError(errorType, message)] prints. *)
Definition errorLine (errorType : string) (message : Msg) : Msg :=
  let head := "[" +:+ errorType +:+ "] " in
  match message with
  | Text s => Text (head +:+ s)
  | TextErr s e => TextErr (head +:+ s) e
  end.

(** [main()].  [os.Exit] ends the process at once: the deferred
    [db.Close()] runs only when [main] returns, that is when
    [ListenAndServeTLS] returns no error. *)
Definition main (h : Host) : list Event :=
  match DotenvErr h with
  | Some err =>
      [Logged (errorLine "STARTUP_ERROR" (Sprintf_v "Error loading .env file: " err));
       OsExit 1]
  | None =>
      let dbUser := os.Getenv (Environ h) "DB_USERNAME" in
      let dbPass := os.Getenv (Environ h) "DB_PASSWORD" in
      let dbHost := os.Getenv (Environ h) "DB_HOST" in
      let dbPort := os.Getenv (Environ h) "DB_PORT" in
      let dbName := os.Getenv (Environ h) "DB_NAME" in
      let listenPort := os.Getenv (Environ h) "LISTEN_PORT" in
      let certFile := os.Getenv (Environ h) "CERT_FILE" in
      let keyFile := os.Getenv (Environ h) "KEY_FILE" in
      if String.eqb dbUser "" || String.eqb dbPass "" || String.eqb dbHost ""
         || String.eqb dbPort "" || String.eqb dbName "" || String.eqb listenPort ""
         || String.eqb certFile "" || String.eqb keyFile "" then
        [Logged (errorLine "CONFIG_ERROR" (Text "Missing required environment variables"));
         OsExit 1]
      else
        let dsn := dbUser +:+ ":" +:+ dbPass +:+ "@tcp(" +:+ dbHost +:+ ":" +:+ dbPort
                     +:+ ")/" +:+ dbName +:+ "?parseTime=true" in
        SqlOpen dsn ::
        match OpenErr h dsn with
        | Some err =>
            [Logged (errorLine "DB_CONNECTION_ERROR"
                       (Sprintf_v "Failed to connect to DB: " err));
             OsExit 1]
        | None =>
            DbPing ::
            match PingErr h with
            | Some err =>
                [Logged (errorLine "DB_PING_ERROR"
                           (Sprintf_v "Database ping failed: " err));
                 OsExit 1]
            | None =>
                StatFile certFile ::
                match Stat h certFile with
                | os.NotExist =>
                    [Logged (errorLine "CONFIG_ERROR"
                               (Text ("Certificate file not found: " +:+ certFile)));
                     OsExit 1]
                | _ =>
                    StatFile keyFile ::
                    match Stat h keyFile with
                    | os.NotExist =>
                        [Logged (errorLine "CONFIG_ERROR"
                                   (Text ("Key file not found: " +:+ keyFile)));
                         OsExit 1]
                    | _ =>
                        Logged (Text ("Starting HTTPS server on port " +:+ listenPort)) ::
                        ListenAndServeTLS (":" +:+ listenPort) certFile keyFile ::
                        match ListenErr h with
                        | Some err =>
                            [Logged (errorLine "SERVER_ERROR"
                                       (Sprintf_v "Failed to start HTTPS server: " err));
                             OsExit 1]
                        | None => [DbClose]
                        end
                    end
                end
            end
        end
  end.

(** All eight variables [main] requires are set and not empty. *)
Definition configured (h : Host) : Prop :=
  Forall (fun key => os.Getenv (Environ h) key <> "")
    ["DB_USERNAME"; "DB_PASSWORD"; "DB_HOST"; "DB_PORT"; "DB_NAME";
     "LISTEN_PORT"; "CERT_FILE"; "KEY_FILE"].

(** The data source name [main] builds. *)
Definition dsnOf (h : Host) : string :=
  os.Getenv (Environ h) "DB_USERNAME" +:+ ":" +:+ os.Getenv (Environ h) "DB_PASSWORD"
    +:+ "@tcp(" +:+ os.Getenv (Environ h) "DB_HOST" +:+ ":"
    +:+ os.Getenv (Environ h) "DB_PORT" +:+ ")/" +:+ os.Getenv (Environ h) "DB_NAME"
    +:+ "?parseTime=true".

(** ** The [main] of the [smsHandler] variant *)

Module variant.

(** It prints nothing, opens the database before it looks at the TLS
    settings, and neither pings the database nor looks for the files. *)
Definition main (h : Host) : list Event :=
  match DotenvErr h with
  | Some _ => [OsExit 1]
  | None =>
      let dbUser := os.Getenv (Environ h) "DB_USERNAME" in
      let dbPass := os.Getenv (Environ h) "DB_PASSWORD" in
      let dbHost := os.Getenv (Environ h) "DB_HOST" in
      let dbPort := os.Getenv (Environ h) "DB_PORT" in
      let dbName := os.Getenv (Environ h) "DB_NAME" in
      let listenPort := os.Getenv (Environ h) "LISTEN_PORT" in
      let dsn := dbUser +:+ ":" +:+ dbPass +:+ "@tcp(" +:+ dbHost +:+ ":" +:+ dbPort
                   +:+ ")/" +:+ dbName in
      SqlOpen dsn ::
      match OpenErr h dsn with
      | Some _ => [OsExit 1]
      | None =>
          let certFile := os.Getenv (Environ h) "CERT_FILE" in
          let keyFile := os.Getenv (Environ h) "KEY_FILE" in
          if String.eqb certFile "" || String.eqb keyFile "" || String.eqb listenPort ""
          then [OsExit 1]
          else
            ListenAndServeTLS (":" +:+ listenPort) certFile keyFile ::
            match ListenErr h with
            | Some _ => [OsExit 1]
            | None => [DbClose]
            end
      end
  end.

End variant.

(** The data source name the variant builds. *)
Definition variantDsnOf (h : Host) : string :=
  os.Getenv (Environ h) "DB_USERNAME" +:+ ":" +:+ os.Getenv (Environ h) "DB_PASSWORD"
    +:+ "@tcp(" +:+ os.Getenv (Environ h) "DB_HOST" +:+ ":"
    +:+ os.Getenv (Environ h) "DB_PORT" +:+ ")/" +:+ os.Getenv (Environ h) "DB_NAME".

(** A log line among the events. *)
Definition isLogged (e : Event) : bool :=
  match e with Logged _ => true | _ => false end.

(** Everything needed for the server of [main] to start is in place. *)
Definition ready (h : Host) : Prop :=
  DotenvErr h = None /\ configured h /\ OpenErr h (dsnOf h) = None /\
  PingErr h = None /\
  Stat h (os.Getenv (Environ h) "CERT_FILE") <> os.NotExist /\
  Stat h (os.Getenv (Environ h) "KEY_FILE") <> os.NotExist.

(** A host on which everything is in place and the server runs until it
    fails with [err]. *)
Definition readyHost (err : option error) : Host :=
  {| DotenvErr := None;
     Environ := {[ "DB_USERNAME" := "sms"; "DB_PASSWORD" := "secret";
                   "DB_HOST" := "localhost"; "DB_PORT" := "3306"; "DB_NAME" := "smsdb";
                   "LISTEN_PORT" := "8443"; "CERT_FILE" := "cert.pem";
                   "KEY_FILE" := "key.pem" ]};
     OpenErr := fun _ => None;
     PingErr := None;
     Stat := fun _ => os.Found;
     ListenErr := err |}.

(** ** Basic facts *)

(** [pieces] iterates [Cut]. *)
Lemma pieces_Cut s sep :
  strings.pieces s sep =
  let '(before, after, found) := strings.Cut s sep in
  if found then before :: strings.pieces after sep else [before].
Proof.
  induction s as [|c rest IH]; [reflexivity|].
  cbn [strings.pieces strings.Cut].
  destruct (Ascii.eqb c sep); [reflexivity|].
  rewrite IH. destruct (strings.Cut rest sep) as [[before after] found].
  now destruct found.
Qed.

Lemma anyEmpty_true a b c :
  anyEmpty a b c = true <-> a = "" \/ b = "" \/ c = "".
Proof.
  unfold anyEmpty. rewrite !orb_true_iff, !String.eqb_eq. tauto.
Qed.

Lemma anyEmpty_false a b c :
  anyEmpty a b c = false <-> a <> "" /\ b <> "" /\ c <> "".
Proof.
  unfold anyEmpty. rewrite !orb_false_iff, !String.eqb_neq. tauto.
Qed.

Lemma orElse_empty b : orElse "" b = b.
Proof. reflexivity. Qed.

Lemma orElse_nonempty a b : a <> "" -> orElse a b = a.
Proof. intros H. unfold orElse. apply String.eqb_neq in H. now rewrite H. Qed.

Lemma Error_status w msg code :
  http.Status w = None -> http.Status (http.Error w msg code) = Some code.
Proof. intros H. unfold http.Error. cbn. now rewrite H. Qed.

Lemma Error_written w msg code :
  http.Written (http.Error w msg code) = http.Written w +:+ msg +:+ newline.
Proof. reflexivity. Qed.

(** *** The five exits of [handleSMS] *)

Section Exits.
Variables (env : Env) (r : http.Request) (st : World).

Lemma handleSMS_invalid_form PostForm err :
  http.ParseForm r = (PostForm, Some err) ->
  handleSMS env r st =
    (http.Error http.NewResponseWriter "Invalid form data" http.StatusBadRequest,
     logError "WEBHOOK_INVALID_FORM" (Sprintf_v "Failed to parse form data: " err) st).
Proof. intros H. unfold handleSMS. now rewrite H. Qed.

Lemma handleSMS_invalid_body PostForm err :
  http.ParseForm r = (PostForm, None) ->
  extractParams PostForm = inl err ->
  handleSMS env r st =
    (http.Error http.NewResponseWriter "Invalid body parameter" http.StatusBadRequest,
     logError "WEBHOOK_INVALID_BODY"
       (Sprintf_v "Failed to parse body parameter: " err) st).
Proof. intros H1 H2. unfold handleSMS. now rewrite H1, H2. Qed.

Lemma handleSMS_missing PostForm messageSID fromNumber body :
  http.ParseForm r = (PostForm, None) ->
  extractParams PostForm = inr (messageSID, fromNumber, body) ->
  anyEmpty messageSID fromNumber body = true ->
  handleSMS env r st =
    (http.Error http.NewResponseWriter "Missing required fields" http.StatusBadRequest,
     logError "WEBHOOK_NO_INPUT"
       (Text (missingFieldsMessage messageSID fromNumber body)) st).
Proof.
  intros H1 H2 H3. unfold handleSMS. rewrite H1, H2.
  unfold anyEmpty in H3. now rewrite H3.
Qed.

Lemma handleSMS_save_failed PostForm messageSID fromNumber body err :
  http.ParseForm r = (PostForm, None) ->
  extractParams PostForm = inr (messageSID, fromNumber, body) ->
  anyEmpty messageSID fromNumber body = false ->
  Faults env (length (statements (db st))) = Some err ->
  handleSMS env r st =
    (http.Error http.NewResponseWriter "Failed to save message"
       http.StatusInternalServerError,
     logError "DB_SAVE_ERROR" (Sprintf_v "Failed to save SMS to database: " err)
       {| db := {| sms_messages := sms_messages (db st);
                   auto_increment := auto_increment (db st);
                   statements := statements (db st) ++
                     [Insert messageSID fromNumber body (time.Now (Clock env))] |};
          log := log st |}).
Proof.
  intros H1 H2 H3 H4. unfold handleSMS. rewrite H1, H2.
  unfold anyEmpty in H3. rewrite H3.
  unfold saveSMS, Exec_insert. cbn [MessageSID FromNumber Body ReceivedAt].
  now rewrite H4.
Qed.

Lemma handleSMS_saved PostForm messageSID fromNumber body :
  http.ParseForm r = (PostForm, None) ->
  extractParams PostForm = inr (messageSID, fromNumber, body) ->
  anyEmpty messageSID fromNumber body = false ->
  Faults env (length (statements (db st))) = None ->
  let w := http.Write
             (http.WriteHeader
                (http.Header_Set http.NewResponseWriter "Content-Type" "application/xml")
                http.StatusOK) twimlResponse in
  let st' := log_Printf
              (Text ("Saved SMS from " +:+ fromNumber +:+ ": " +:+ body))
              {| db := {| sms_messages := sms_messages (db st) ++
                            [{| id := auto_increment (db st);
                                message_sid := messageSID;
                                from_number := fromNumber;
                                body := body;
                                received_at := time.Now (Clock env) |}];
                          auto_increment := auto_increment (db st) + 1;
                          statements := statements (db st) ++
                            [Insert messageSID fromNumber body (time.Now (Clock env))] |};
                 log := log st |} in
  handleSMS env r st =
    (w, match WriteErr env with
        | Some err => logError "WEBHOOK_RESPONSE_ERROR"
                        (Sprintf_v "Error writing TwiML response: " err) st'
        | None => st'
        end).
Proof.
  intros H1 H2 H3 H4. unfold handleSMS. rewrite H1, H2.
  unfold anyEmpty in H3. rewrite H3.
  unfold saveSMS, Exec_insert. cbn [MessageSID FromNumber Body ReceivedAt].
  rewrite H4. now destruct (WriteErr env).
Qed.

End Exits.

Lemma validated_Some r a b c :
  validated r = Some (a, b, c) <->
  exists PostForm,
    http.ParseForm r = (PostForm, None) /\
    extractParams PostForm = inr (a, b, c) /\
    anyEmpty a b c = false.
Proof.
  unfold validated. split.
  - destruct (http.ParseForm r) as [pf [e|]]; [discriminate|].
    destruct (extractParams pf) as [e|[[x y] z]] eqn:Hx; [discriminate|].
    destruct (anyEmpty x y z) eqn:E; [discriminate|].
    intros [= <- <- <-]. now exists pf.
  - intros (pf & -> & -> & ->). reflexivity.
Qed.

(** Splits a goal about [handleSMS env r st] along its five exits, leaving
    the equations that select the exit in the context. *)
Ltac handleSMS_exits env r st :=
  let pf := fresh "PostForm" in
  let e := fresh "err" in
  let a := fresh "messageSID" in
  let b := fresh "fromNumber" in
  let c := fresh "body" in
  let HPF := fresh "HPF" in
  let HEX := fresh "HEX" in
  let HAE := fresh "HAE" in
  let HF := fresh "HF" in
  destruct (http.ParseForm r) as [pf [e|]] eqn:HPF;
  [ rewrite (handleSMS_invalid_form env r st pf e HPF)
  | destruct (extractParams pf) as [e|[[a b] c]] eqn:HEX;
    [ rewrite (handleSMS_invalid_body env r st pf e HPF HEX)
    | destruct (anyEmpty a b c) eqn:HAE;
      [ rewrite (handleSMS_missing env r st pf a b c HPF HEX HAE)
      | destruct (Faults env (length (statements (db st)))) as [e|] eqn:HF;
        [ rewrite (handleSMS_save_failed env r st pf a b c e HPF HEX HAE HF)
        | rewrite (handleSMS_saved env r st pf a b c HPF HEX HAE HF) ] ] ] ].

Lemma app_singleton_neq {A} (l : list A) (x : A) : l <> l ++ [x].
Proof.
  intros H. apply (f_equal (@length A)) in H.
  rewrite length_app in H. cbn in H. lia.
Qed.

Lemma logError_db errorType message st : db (logError errorType message st) = db st.
Proof. reflexivity. Qed.

(** ** Validation and the error exits *)

(** The exit taken when a variable is empty at validation. *)
Lemma missing_fields_rejected_aux env r st PostForm messageSID fromNumber body :
  http.ParseForm r = (PostForm, None) ->
  extractParams PostForm = inr (messageSID, fromNumber, body) ->
  messageSID = "" \/ fromNumber = "" \/ body = "" ->
  statusOf (handleSMS env r st) = Some 400 /\
  bodyOf (handleSMS env r st) = "Missing required fields" +:+ newline /\
  db (snd (handleSMS env r st)) = db st /\
  log (snd (handleSMS env r st)) =
    log st ++ [Text ("[WEBHOOK_NO_INPUT] Missing required fields: MessageSid="
                      +:+ messageSID +:+ ", From=" +:+ fromNumber
                      +:+ ", Body=" +:+ body)].
Proof.
  intros HPF HEX Hempty.
  apply anyEmpty_true in Hempty.
  rewrite (handleSMS_missing env r st _ _ _ _ HPF HEX Hempty).
  repeat split.
Qed.

(** C3. When one of the three variables is still empty after the direct
    lookup and the nested-body fallback, [handleSMS] replies 400 "Missing
    required fields", leaves the database handle untouched (no statement,
    no row) and logs one WEBHOOK_NO_INPUT line that shows the three values,
    the missing ones empty. *)
Theorem missing_fields_rejected env r st PostForm messageSID fromNumber body :
  http.ParseForm r = (PostForm, None) ->
  extractParams PostForm = inr (messageSID, fromNumber, body) ->
  messageSID = "" \/ fromNumber = "" \/ body = "" ->
  let out := handleSMS env r st in
  statusOf out = Some 400 /\
  bodyOf out = "Missing required fields" +:+ newline /\
  db (snd out) = db st /\
  log (snd out) =
    log st ++ [Text ("[WEBHOOK_NO_INPUT] Missing required fields: MessageSid="
                      +:+ messageSID +:+ ", From=" +:+ fromNumber
                      +:+ ", Body=" +:+ body)].
Proof.
  intros HPF HEX Hempty out. subst out.
  now apply missing_fields_rejected_aux with (PostForm := PostForm).
Qed.

Lemma missing_fields_rejected_witness :
  let r := formPost "MessageSid=SM1&Body=Hi" in
  let out := handleSMS (calmEnv 0) r emptyWorld in
  extractParams (fst (http.ParseForm r)) = inr ("SM1", "", "Hi") /\
  statusOf out = Some 400 /\
  bodyOf out = "Missing required fields" +:+ newline /\
  db (snd out) = db emptyWorld /\
  log (snd out) =
    [Text "[WEBHOOK_NO_INPUT] Missing required fields: MessageSid=SM1, From=, Body=Hi"].
Proof.
  split; [vm_compute; reflexivity|].
  apply (missing_fields_rejected (calmEnv 0) (formPost "MessageSid=SM1&Body=Hi")
           emptyWorld (fst (http.ParseForm (formPost "MessageSid=SM1&Body=Hi")))
           "SM1" "" "Hi").
  - vm_compute; reflexivity.
  - vm_compute; reflexivity.
  - right; left; reflexivity.
Defined.

(** C4. When the request passed validation and the driver reports an
    error for the INSERT, [handleSMS] replies 500 with the fixed text
    "Failed to save message", logs the error under DB_SAVE_ERROR, has sent
    exactly that one statement (no second attempt, whatever the driver
    would have answered to it) and leaves the table without a new row. *)
Theorem persistence_failure_reported env r st messageSID fromNumber body err :
  validated r = Some (messageSID, fromNumber, body) ->
  Faults env (length (statements (db st))) = Some err ->
  let out := handleSMS env r st in
  statusOf out = Some 500 /\
  bodyOf out = "Failed to save message" +:+ newline /\
  log (snd out) =
    log st ++ [TextErr "[DB_SAVE_ERROR] Failed to save SMS to database: " err] /\
  statementsAfter out =
    statements (db st) ++ [Insert messageSID fromNumber body (time.Now (Clock env))] /\
  tableAfter out = sms_messages (db st).
Proof.
  intros Hv HF out. subst out.
  apply validated_Some in Hv as (pf & HPF & HEX & HAE).
  rewrite (handleSMS_save_failed env r st _ _ _ _ _ HPF HEX HAE HF).
  repeat split.
Qed.

Lemma persistence_failure_reported_witness :
  let out := handleSMS (flakyEnv 0)
               (formPost "MessageSid=SM123&From=%2B15551234567&Body=Hello") emptyWorld in
  statusOf out = Some 500 /\
  bodyOf out = "Failed to save message" +:+ newline /\
  log (snd out) =
    [TextErr "[DB_SAVE_ERROR] Failed to save SMS to database: "
       (ErrDriver "connection refused")] /\
  statementsAfter out = [Insert "SM123" "+15551234567" "Hello" (time.Now 0)] /\
  tableAfter out = [].
Proof.
  apply (persistence_failure_reported (flakyEnv 0)
           (formPost "MessageSid=SM123&From=%2B15551234567&Body=Hello") emptyWorld
           "SM123" "+15551234567" "Hello" (ErrDriver "connection refused")).
  - vm_compute; reflexivity.
  - reflexivity.
Defined.

(** *** What a run of [handleSMS] does to the database handle *)

Lemma handleSMS_db env r st :
  db (snd (handleSMS env r st)) =
  match validated r with
  | Some (messageSID, fromNumber, body) =>
      fst (Exec_insert env (db st) messageSID fromNumber body (time.Now (Clock env)))
  | None => db st
  end.
Proof.
  unfold validated.
  handleSMS_exits env r st; try reflexivity.
  - unfold Exec_insert. rewrite HF. reflexivity.
  - unfold Exec_insert. rewrite HF. cbv zeta. now destruct (WriteErr env).
Qed.

Lemma Exec_insert_statements env d a b c t :
  statements (fst (Exec_insert env d a b c t)) = statements d ++ [Insert a b c t].
Proof. unfold Exec_insert. now destruct (Faults env _). Qed.

Lemma Exec_insert_table env d a b c t :
  sms_messages (fst (Exec_insert env d a b c t)) =
  match Faults env (length (statements d)) with
  | Some _ => sms_messages d
  | None => sms_messages d ++
      [{| id := auto_increment d; message_sid := a; from_number := b;
          body := c; received_at := t |}]
  end.
Proof. unfold Exec_insert. now destruct (Faults env _). Qed.

(** C2, as stated, fails: a request whose three fields pass validation
    writes no row when the driver refuses the INSERT. *)
Lemma valid_fields_without_row :
  let r := formPost "MessageSid=SM123&From=%2B15551234567&Body=Hello" in
  validated r = Some ("SM123", "+15551234567", "Hello") /\
  ~ (rowWritten (downEnv 0) r emptyWorld <-> is_Some (validated r)).
Proof.
  split; [vm_compute; reflexivity|].
  intros [_ H].
  destruct H as [row Hrow].
  - eexists. vm_compute. reflexivity.
  - vm_compute in Hrow. discriminate Hrow.
Qed.

(** C2, amended. A row is written exactly when the three fields were
    non-empty after both extraction passes and the driver reported no
    error for the INSERT.  When validation is not reached or fails
    (malformed form, failed nested parse, missing field) the database
    handle is untouched; in every run without a written row the table is
    as before; and a written row has none of its three fields empty. *)
Theorem row_written_iff env r st :
  let out := handleSMS env r st in
  (rowWritten env r st <->
     is_Some (validated r) /\ Faults env (length (statements (db st))) = None) /\
  (validated r = None -> db (snd out) = db st) /\
  (~ rowWritten env r st -> tableAfter out = sms_messages (db st)) /\
  (forall row, tableAfter out = sms_messages (db st) ++ [row] ->
     message_sid row <> "" /\ from_number row <> "" /\ body row <> "").
Proof.
  cbv zeta. unfold rowWritten, tableAfter. rewrite handleSMS_db.
  destruct (validated r) as [[[a b] c]|] eqn:Hv.
  - rewrite Exec_insert_table.
    apply validated_Some in Hv as (pf & _ & _ & HAE).
    apply anyEmpty_false in HAE.
    destruct (Faults env _) as [e|] eqn:HF.
    + split; [split|split; [|split]].
      * intros [row Hrow]. now apply app_singleton_neq in Hrow.
      * intros [_ [=]].
      * discriminate.
      * reflexivity.
      * intros row Hrow. now apply app_singleton_neq in Hrow.
    + split; [split|split; [|split]].
      * intros _. split; [eauto | reflexivity].
      * intros _. eauto.
      * discriminate.
      * intros Hno. exfalso. apply Hno. eauto.
      * intros row Hrow. apply app_inv_head in Hrow as [= <-]. exact HAE.
  - split; [split|split; [|split]].
    + intros [row Hrow]. now apply app_singleton_neq in Hrow.
    + intros [[x [=]] _].
    + reflexivity.
    + reflexivity.
    + intros row Hrow. now apply app_singleton_neq in Hrow.
Qed.

Lemma row_written_iff_witness :
  let r := formPost "MessageSid=SM123&From=%2B15551234567&Body=Hello" in
  rowWritten (calmEnv 0) r emptyWorld /\
  ~ rowWritten (downEnv 0) r emptyWorld /\
  ~ rowWritten (calmEnv 0) (formPost "MessageSid=SM123&Body=Hello") emptyWorld.
Proof.
  pose (r := formPost "MessageSid=SM123&From=%2B15551234567&Body=Hello").
  assert (validated r = Some ("SM123", "+15551234567", "Hello")) as Hv
    by (vm_compute; reflexivity).
  split; [|split].
  - apply (proj1 (row_written_iff (calmEnv 0) r emptyWorld)).
    rewrite Hv. split; [eexists; reflexivity | reflexivity].
  - intros H.
    apply (proj1 (row_written_iff (downEnv 0) r emptyWorld)) in H as [_ H].
    discriminate H.
  - intros H.
    apply (proj1 (row_written_iff (calmEnv 0)
                    (formPost "MessageSid=SM123&Body=Hello") emptyWorld))
      in H as [[x H] _].
    vm_compute in H. discriminate H.
Defined.

(** ** The extraction block *)

(** The block, with every two-key lookup read as "first non-empty". *)
Lemma extractParams_eq PostForm :
  extractParams PostForm =
  let messageSID := orElse (http.PostFormValue PostForm "MessageSid")
                           (http.PostFormValue PostForm "messagesid") in
  let fromNumber := orElse (http.PostFormValue PostForm "From")
                           (http.PostFormValue PostForm "from") in
  let body := orElse (http.PostFormValue PostForm "Body")
                     (http.PostFormValue PostForm "body") in
  if anyEmpty messageSID fromNumber body then
    if negb (String.eqb (http.PostFormValue PostForm "body") "") then
      match url.ParseQuery
              (strings.TrimPrefix (http.PostFormValue PostForm "body") "?") with
      | (_, Some err) => inl err
      | (parsed, None) =>
          inr (orElse messageSID
                 (orElse (url.Get parsed "MessageSid") (url.Get parsed "messagesid")),
               orElse fromNumber
                 (orElse (url.Get parsed "From") (url.Get parsed "from")),
               orElse body
                 (orElse (url.Get parsed "Body") (url.Get parsed "body")))
      end
    else inr (messageSID, fromNumber, body)
  else inr (messageSID, fromNumber, body).
Proof. reflexivity. Qed.

Lemma orElse_empty_r a : orElse a "" = a.
Proof. unfold orElse. destruct (String.eqb a "") eqn:E; [|reflexivity].
  apply String.eqb_eq in E. now subst. Qed.

Lemma orElse_eq_empty a b : orElse a b = "" <-> a = "" /\ b = "".
Proof.
  unfold orElse. destruct (String.eqb a "") eqn:E.
  - apply String.eqb_eq in E. subst. tauto.
  - apply String.eqb_neq in E. tauto.
Qed.

(** Without a lowercase [body] field the fallback is not entered: the
    result is the direct lookup, and nothing is parsed a second time. *)
Lemma extractParams_no_fallback PostForm :
  http.PostFormValue PostForm "body" = "" ->
  extractParams PostForm =
    inr (orElse (http.PostFormValue PostForm "MessageSid")
                (http.PostFormValue PostForm "messagesid"),
         orElse (http.PostFormValue PostForm "From")
                (http.PostFormValue PostForm "from"),
         http.PostFormValue PostForm "Body").
Proof.
  intros Hb. rewrite extractParams_eq. cbv zeta. rewrite Hb, orElse_empty_r.
  cbn [String.eqb negb]. now destruct (anyEmpty _ _ _).
Qed.

(** With the three provider keys present the fallback is not entered. *)
Lemma extractParams_primary PostForm :
  http.PostFormValue PostForm "MessageSid" <> "" ->
  http.PostFormValue PostForm "From" <> "" ->
  http.PostFormValue PostForm "Body" <> "" ->
  extractParams PostForm =
    inr (http.PostFormValue PostForm "MessageSid",
         http.PostFormValue PostForm "From",
         http.PostFormValue PostForm "Body").
Proof.
  intros H1 H2 H3. rewrite extractParams_eq. cbv zeta.
  rewrite !orElse_nonempty by assumption.
  assert (anyEmpty (http.PostFormValue PostForm "MessageSid")
            (http.PostFormValue PostForm "From")
            (http.PostFormValue PostForm "Body") = false) as ->
    by now apply anyEmpty_false.
  reflexivity.
Qed.

(** The third variable never comes from the nested string: inside the
    fallback [body] already holds the lowercase [body] field, so the branch
    [if body == "" { body = parsed.Get("Body") ... }] cannot run. *)
Lemma extractParams_body PostForm messageSID fromNumber body :
  extractParams PostForm = inr (messageSID, fromNumber, body) ->
  body = orElse (http.PostFormValue PostForm "Body")
                (http.PostFormValue PostForm "body").
Proof.
  rewrite extractParams_eq. cbv zeta.
  destruct (anyEmpty _ _ _); [|now intros [= _ _ <-]].
  destruct (String.eqb (http.PostFormValue PostForm "body") "") eqn:E;
    cbn [negb]; [now intros [= _ _ <-]|].
  destruct (url.ParseQuery _) as [parsed [e|]]; [discriminate|].
  intros [= _ _ <-].
  apply orElse_nonempty. intros H. apply orElse_eq_empty in H as [_ H].
  apply String.eqb_neq in E. contradiction.
Qed.

(** A form that holds the single field [body]. *)
Lemma extractParams_nested_only v parsed :
  v <> "" ->
  url.ParseQuery (strings.TrimPrefix v "?") = (parsed, None) ->
  extractParams {[ "body" := [v] ]} =
    inr (orElse (url.Get parsed "MessageSid") (url.Get parsed "messagesid"),
         orElse (url.Get parsed "From") (url.Get parsed "from"),
         v).
Proof.
  intros Hv HP. rewrite extractParams_eq. cbv zeta.
  assert (forall key, key <> "body" ->
            http.PostFormValue ({[ "body" := [v] ]} : Values) key = "") as Hne.
  { intros key Hk. unfold http.PostFormValue.
    rewrite lookup_singleton_ne by congruence. reflexivity. }
  assert (http.PostFormValue ({[ "body" := [v] ]} : Values) "body" = v) as Heq.
  { unfold http.PostFormValue. now rewrite lookup_singleton_eq. }
  rewrite !Hne by discriminate. rewrite Heq, HP.
  rewrite !orElse_empty. cbn [anyEmpty String.eqb orb].
  apply String.eqb_neq in Hv. rewrite Hv. cbn [negb].
  rewrite (orElse_nonempty v) by now apply String.eqb_neq.
  reflexivity.
Qed.

(** ** The nested-body fallback *)

(** C1, as stated, fails on its own example: the request
    [body=%3FMessageSid%3DSM9%26From%3D%2B1555%26Body%3DHi] is answered 200,
    but the stored sender is [" 1555"] (the nested string is decoded as a
    query a second time, where [+] is a space) and the stored body is the
    whole nested string, not ["Hi"]. *)
Lemma nested_example_record :
  let out := handleSMS (calmEnv 0)
               (formPost "body=%3FMessageSid%3DSM9%26From%3D%2B1555%26Body%3DHi")
               emptyWorld in
  statusOf out = Some 200 /\
  tableAfter out =
    [{| id := 1; message_sid := "SM9"; from_number := " 1555";
        body := "?MessageSid=SM9&From=+1555&Body=Hi"; received_at := time.Now 0 |}] /\
  ~ (exists row, tableAfter out = [row] /\
       message_sid row = "SM9" /\ from_number row = "+1555" /\ body row = "Hi").
Proof.
  cbv zeta. split; [vm_compute; reflexivity|].
  split; [vm_compute; reflexivity|].
  intros (row & Hrow & _ & _ & Hbody).
  vm_compute in Hrow. injection Hrow as <-. discriminate Hbody.
Qed.

(** C1, amended. For a request whose form holds the single field [body]
    with a value that, after one leading [?] is removed, parses as a query
    string with a non-empty message identifier and sender: [handleSMS]
    reads these two from the nested string (query-decoded) and, when the
    INSERT succeeds, replies 200 and stores a row that carries them; a
    request that supplies the same identifier and sender directly under
    [MessageSid] and [From] (with any non-empty [Body]) gets the same reply
    and a row with the same identifier and sender. *)
Theorem nested_body_fills_sid_and_from env r st v parsed r' b :
  http.ParseForm r = ({[ "body" := [v] ]}, None) ->
  url.ParseQuery (strings.TrimPrefix v "?") = (parsed, None) ->
  let sid := orElse (url.Get parsed "MessageSid") (url.Get parsed "messagesid") in
  let from := orElse (url.Get parsed "From") (url.Get parsed "from") in
  sid <> "" -> from <> "" ->
  Faults env (length (statements (db st))) = None ->
  http.ParseForm r' =
    ({[ "MessageSid" := [sid]; "From" := [from]; "Body" := [b] ]}, None) ->
  b <> "" ->
  let out := handleSMS env r st in
  let out' := handleSMS env r' st in
  statusOf out = Some 200 /\
  (exists row, tableAfter out = sms_messages (db st) ++ [row] /\
     message_sid row = sid /\ from_number row = from) /\
  fst out = fst out' /\
  (exists row', tableAfter out' = sms_messages (db st) ++ [row'] /\
     message_sid row' = sid /\ from_number row' = from).
Proof.
  intros HPF HP sid from Hsid Hfrom HF HPF' Hb out out'.
  assert (v <> "") as Hv.
  { intros ->. cbn in HP. injection HP as <-. now apply Hsid. }
  pose proof (extractParams_nested_only v parsed Hv HP) as HEX.
  fold sid from in HEX.
  assert (anyEmpty sid from v = false) as HAE by now apply anyEmpty_false.
  assert (extractParams {[ "MessageSid" := [sid]; "From" := [from]; "Body" := [b] ]}
          = inr (sid, from, b)) as HEX'.
  { rewrite extractParams_primary; unfold http.PostFormValue;
      simplify_map_eq; try assumption; reflexivity. }
  assert (anyEmpty sid from b = false) as HAE' by now apply anyEmpty_false.
  subst out out'.
  rewrite (handleSMS_saved env r st _ _ _ _ HPF HEX HAE HF).
  rewrite (handleSMS_saved env r' st _ _ _ _ HPF' HEX' HAE' HF).
  cbv zeta. unfold statusOf, tableAfter.
  destruct (WriteErr env); cbn [fst snd db sms_messages logError log_Printf];
    (split; [reflexivity|]); (split; [eexists; split; [reflexivity|split; reflexivity]|]);
    (split; [reflexivity|]); eexists; (split; [reflexivity|split; reflexivity]).
Qed.

Lemma nested_body_fills_sid_and_from_witness :
  let out := handleSMS (calmEnv 0)
               (formPost "body=%3FMessageSid%3DSM9%26From%3D%2B1555%26Body%3DHi")
               emptyWorld in
  let out' := handleSMS (calmEnv 0)
                (formPost "MessageSid=SM9&From=+1555&Body=Hi") emptyWorld in
  statusOf out = Some 200 /\
  (exists row, tableAfter out = sms_messages (db emptyWorld) ++ [row] /\
     message_sid row = "SM9" /\ from_number row = " 1555") /\
  fst out = fst out' /\
  (exists row', tableAfter out' = sms_messages (db emptyWorld) ++ [row'] /\
     message_sid row' = "SM9" /\ from_number row' = " 1555").
Proof.
  apply (nested_body_fills_sid_and_from (calmEnv 0)
           (formPost "body=%3FMessageSid%3DSM9%26From%3D%2B1555%26Body%3DHi")
           emptyWorld "?MessageSid=SM9&From=+1555&Body=Hi"
           (fst (url.ParseQuery "MessageSid=SM9&From=+1555&Body=Hi"))
           (formPost "MessageSid=SM9&From=+1555&Body=Hi") "Hi").
  - vm_compute; reflexivity.
  - vm_compute; reflexivity.
  - vm_compute; discriminate.
  - vm_compute; discriminate.
  - reflexivity.
  - vm_compute; reflexivity.
  - discriminate.
Defined.

(** Past the extraction the reply depends on the three variables only
    through their being empty or not. *)
Lemma handleSMS_reply_by_fields env r r' st PostForm PostForm' sid from b b' :
  http.ParseForm r = (PostForm, None) ->
  http.ParseForm r' = (PostForm', None) ->
  extractParams PostForm = inr (sid, from, b) ->
  extractParams PostForm' = inr (sid, from, b') ->
  b <> "" -> b' <> "" ->
  fst (handleSMS env r' st) = fst (handleSMS env r st).
Proof.
  intros HPF HPF' HEX HEX' Hb Hb'.
  destruct (anyEmpty sid from b) eqn:HAE.
  - assert (anyEmpty sid from b' = true) as HAE'.
    { apply anyEmpty_true in HAE. apply anyEmpty_true. tauto. }
    now rewrite (handleSMS_missing env r st _ _ _ _ HPF HEX HAE),
                (handleSMS_missing env r' st _ _ _ _ HPF' HEX' HAE').
  - assert (anyEmpty sid from b' = false) as HAE'.
    { apply anyEmpty_false in HAE. apply anyEmpty_false. tauto. }
    destruct (Faults env (length (statements (db st)))) as [e|] eqn:HF.
    + now rewrite (handleSMS_save_failed env r st _ _ _ _ _ HPF HEX HAE HF),
                  (handleSMS_save_failed env r' st _ _ _ _ _ HPF' HEX' HAE' HF).
    + now rewrite (handleSMS_saved env r st _ _ _ _ HPF HEX HAE HF),
                  (handleSMS_saved env r' st _ _ _ _ HPF' HEX' HAE' HF).
Qed.

(** With a non-empty uppercase [Body] the third variable is settled by
    the direct lookup; what is left of the block reads [Body] no more. *)
Lemma extractParams_with_Body PostForm :
  http.PostFormValue PostForm "Body" <> "" ->
  extractParams PostForm =
  let messageSID := orElse (http.PostFormValue PostForm "MessageSid")
                           (http.PostFormValue PostForm "messagesid") in
  let fromNumber := orElse (http.PostFormValue PostForm "From")
                           (http.PostFormValue PostForm "from") in
  if (String.eqb messageSID "" || String.eqb fromNumber "")
     && negb (String.eqb (http.PostFormValue PostForm "body") "") then
    match url.ParseQuery
            (strings.TrimPrefix (http.PostFormValue PostForm "body") "?") with
    | (_, Some err) => inl err
    | (parsed, None) =>
        inr (orElse messageSID
               (orElse (url.Get parsed "MessageSid") (url.Get parsed "messagesid")),
             orElse fromNumber
               (orElse (url.Get parsed "From") (url.Get parsed "from")),
             http.PostFormValue PostForm "Body")
    end
  else inr (messageSID, fromNumber, http.PostFormValue PostForm "Body").
Proof.
  intros HB. rewrite extractParams_eq. cbv zeta.
  rewrite !(orElse_nonempty (http.PostFormValue PostForm "Body")) by exact HB.
  unfold anyEmpty. apply String.eqb_neq in HB. rewrite HB, orb_false_r.
  destruct (_ || _); [|reflexivity].
  destruct (negb _); [|reflexivity]. cbn [andb].
  destruct (url.ParseQuery _) as [parsed [e|]]; [reflexivity|].
  rewrite (orElse_nonempty (http.PostFormValue PostForm "Body"))
    by now apply String.eqb_neq.
  reflexivity.
Qed.

(** An "Invalid body parameter" can only come from the lowercase field. *)
Lemma extractParams_error PostForm err :
  extractParams PostForm = inl err ->
  http.PostFormValue PostForm "body" <> "" /\
  snd (url.ParseQuery
         (strings.TrimPrefix (http.PostFormValue PostForm "body") "?")) = Some err.
Proof.
  rewrite extractParams_eq. cbv zeta.
  destruct (anyEmpty _ _ _); [|discriminate].
  destruct (String.eqb (http.PostFormValue PostForm "body") "") eqn:E;
    cbn [negb]; [discriminate|].
  apply String.eqb_neq in E.
  destruct (url.ParseQuery _) as [parsed [e|]]; [|discriminate].
  intros [= ->]. now split.
Qed.

(** C9. The nested payload is read from the lowercase [body] field only.
    A failure of the second parse is a failure to parse that field (one
    leading [?] removed); what the uppercase [Body] holds is never parsed:
    a request that differs only in the (non-empty) value of [Body] gets the
    same reply, the same message identifier and sender, and each has its
    own [Body], as it came, for body text.  When the lowercase field is
    empty or absent the extraction is the direct lookup and nothing is
    parsed a second time; if a required field is then missing the reply is
    400 "Missing required fields" and the database handle is untouched.  In
    particular a request whose only non-empty field is the uppercase [Body]
    is answered so, whatever [Body] holds: the log line shows it
    unparsed. *)
Theorem nested_payload_only_from_lowercase_body env r st PostForm r' PostForm' :
  http.ParseForm r = (PostForm, None) ->
  http.ParseForm r' = (PostForm', None) ->
  let messageSID := orElse (http.PostFormValue PostForm "MessageSid")
                           (http.PostFormValue PostForm "messagesid") in
  let fromNumber := orElse (http.PostFormValue PostForm "From")
                           (http.PostFormValue PostForm "from") in
  let body := http.PostFormValue PostForm "Body" in
  let out := handleSMS env r st in
  (forall err,
     extractParams PostForm = inl err ->
     http.PostFormValue PostForm "body" <> "" /\
     snd (url.ParseQuery
            (strings.TrimPrefix (http.PostFormValue PostForm "body") "?")) = Some err) /\
  ((forall key, key <> "Body" ->
      http.PostFormValue PostForm' key = http.PostFormValue PostForm key) ->
   body <> "" -> http.PostFormValue PostForm' "Body" <> "" ->
     fst (handleSMS env r' st) = fst out /\
     match extractParams PostForm, extractParams PostForm' with
     | inl err, inl err' => err' = err
     | inr (sid, from, b), inr (sid', from', b') =>
         sid' = sid /\ from' = from /\
         b = body /\ b' = http.PostFormValue PostForm' "Body"
     | _, _ => False
     end) /\
  (http.PostFormValue PostForm "body" = "" ->
     extractParams PostForm = inr (messageSID, fromNumber, body) /\
     (messageSID = "" \/ fromNumber = "" \/ body = "" ->
        statusOf out = Some 400 /\
        bodyOf out = "Missing required fields" +:+ newline /\
        db (snd out) = db st)) /\
  ((forall key, key <> "Body" -> http.PostFormValue PostForm key = "") ->
     statusOf out = Some 400 /\
     bodyOf out = "Missing required fields" +:+ newline /\
     db (snd out) = db st /\
     log (snd out) =
       log st ++ [Text ("[WEBHOOK_NO_INPUT] Missing required fields: MessageSid=, From=, Body="
                         +:+ body)]).
Proof.
  intros HPF HPF' messageSID fromNumber body out.
  split; [intros err; apply extractParams_error|].
  split; [|split].
  - intros Hkeys HB HB'.
    pose proof (extractParams_with_Body PostForm HB) as HEX.
    pose proof (extractParams_with_Body PostForm' HB') as HEX'.
    cbv zeta in HEX, HEX'. rewrite !Hkeys in HEX' by discriminate.
    fold messageSID fromNumber body in HEX, HEX'.
    destruct ((String.eqb messageSID "" || String.eqb fromNumber "")
              && negb (String.eqb (http.PostFormValue PostForm "body") "")) eqn:Htry.
    + destruct (url.ParseQuery _) as [parsed [e|]].
      * rewrite HEX, HEX'. split; [|reflexivity]. subst out.
        now rewrite (handleSMS_invalid_body env r st _ _ HPF HEX),
                    (handleSMS_invalid_body env r' st _ _ HPF' HEX').
      * rewrite HEX, HEX'. split; [|now repeat split]. subst out.
        eapply handleSMS_reply_by_fields; eassumption.
    + rewrite HEX, HEX'. split; [|now repeat split]. subst out.
      eapply handleSMS_reply_by_fields; eassumption.
  - intros Hb.
    pose proof (extractParams_no_fallback PostForm Hb) as HEX.
    fold messageSID fromNumber body in HEX.
    split; [exact HEX|]. intros Hempty.
    destruct (missing_fields_rejected_aux env r st PostForm _ _ _ HPF HEX Hempty)
      as (H1 & H2 & H3 & _).
    now repeat split.
  - intros Honly.
    pose proof (extractParams_no_fallback PostForm (Honly "body" ltac:(discriminate)))
      as HEX.
    fold messageSID fromNumber body in HEX.
    assert (messageSID = "") as Hsid.
    { subst messageSID. rewrite !Honly by discriminate. reflexivity. }
    assert (fromNumber = "") as Hfrom.
    { subst fromNumber. rewrite !Honly by discriminate. reflexivity. }
    destruct (missing_fields_rejected_aux env r st PostForm _ _ _ HPF HEX
                (or_introl Hsid)) as (H1 & H2 & H3 & H4).
    rewrite Hsid, Hfrom in H4.
    now repeat split.
Qed.

Lemma nested_payload_only_from_lowercase_body_witness :
  let r := formPost "Body=MessageSid%3DA%26From%3D1&body=x" in
  let r' := formPost "Body=z&body=x" in
  let only := formPost "Body=%3FMessageSid%3DSM9%26From%3D1555%26Body%3DHi" in
  extractParams (fst (http.ParseForm r)) = inr ("", "", "MessageSid=A&From=1") /\
  fst (handleSMS (calmEnv 0) r' emptyWorld) = fst (handleSMS (calmEnv 0) r emptyWorld) /\
  statusOf (handleSMS (calmEnv 0) r emptyWorld) = Some 400 /\
  statusOf (handleSMS (calmEnv 0) only emptyWorld) = Some 400 /\
  bodyOf (handleSMS (calmEnv 0) only emptyWorld) = "Missing required fields" +:+ newline /\
  db (snd (handleSMS (calmEnv 0) only emptyWorld)) = db emptyWorld /\
  log (snd (handleSMS (calmEnv 0) only emptyWorld)) =
    [Text "[WEBHOOK_NO_INPUT] Missing required fields: MessageSid=, From=, Body=?MessageSid=SM9&From=1555&Body=Hi"].
Proof.
  pose (r := formPost "Body=MessageSid%3DA%26From%3D1&body=x").
  pose (r' := formPost "Body=z&body=x").
  pose (only := formPost "Body=%3FMessageSid%3DSM9%26From%3D1555%26Body%3DHi").
  assert (http.ParseForm r =
            ({[ "Body" := ["MessageSid=A&From=1"]; "body" := ["x"] ]}, None)) as HPF
    by (vm_compute; reflexivity).
  assert (http.ParseForm r' = ({[ "Body" := ["z"]; "body" := ["x"] ]}, None)) as HPF'
    by (vm_compute; reflexivity).
  assert (http.ParseForm only =
            ({[ "Body" := ["?MessageSid=SM9&From=1555&Body=Hi"] ]}, None)) as HPFo
    by (vm_compute; reflexivity).
  destruct (nested_payload_only_from_lowercase_body (calmEnv 0) r emptyWorld _ r' _
              HPF HPF') as (_ & Hsame & _ & _).
  destruct Hsame as (Hreply & Hfields).
  { intros key Hk. unfold http.PostFormValue.
    rewrite !(lookup_insert_ne _ "Body") by congruence. reflexivity. }
  { vm_compute; discriminate. }
  { vm_compute; discriminate. }
  destruct (nested_payload_only_from_lowercase_body (calmEnv 0) only emptyWorld _ only _
              HPFo HPFo) as (_ & _ & _ & Honly).
  cbv zeta. fold r r' only. rewrite HPF.
  split; [vm_compute; reflexivity|]. split; [exact Hreply|].
  split; [vm_compute; reflexivity|].
  apply Honly.
  intros key Hk. unfold http.PostFormValue.
  rewrite lookup_singleton_ne by congruence. reflexivity.
Defined.

(** ** The success path *)

(** C7, as stated, fails on the reply body: the acknowledgment that
    [handleSMS] writes is laid out over four lines, so it is not the
    one-line literal. *)
Lemma ack_is_not_one_line :
  let out := handleSMS (calmEnv 0)
               (formPost "MessageSid=SM123&From=%2B15551234567&Body=Hello")
               emptyWorld in
  statusOf out = Some 200 /\ bodyOf out <> ackOneLine.
Proof.
  cbv zeta. split; [vm_compute; reflexivity|].
  vm_compute. discriminate.
Qed.

(** C7, amended. When the form holds non-empty [MessageSid], [From] and
    [Body] and the INSERT succeeds, the row appended to the table carries
    exactly these three values, and the reply has status 200, content type
    application/xml and, as body, the acknowledgment XML on four lines:
    the XML declaration, [<Response>], the [Message] element indented by
    four spaces, [</Response>], separated by line feeds.  Without the line
    feeds and the indentation it is the one-line literal. *)
Theorem primary_fields_stored env r st PostForm :
  http.ParseForm r = (PostForm, None) ->
  let messageSID := http.PostFormValue PostForm "MessageSid" in
  let fromNumber := http.PostFormValue PostForm "From" in
  let body := http.PostFormValue PostForm "Body" in
  messageSID <> "" -> fromNumber <> "" -> body <> "" ->
  Faults env (length (statements (db st))) = None ->
  let out := handleSMS env r st in
  tableAfter out =
    sms_messages (db st) ++
      [{| id := auto_increment (db st); message_sid := messageSID;
          from_number := fromNumber; body := body;
          received_at := time.Now (Clock env) |}] /\
  statusOf out = Some 200 /\
  contentTypeOf out = Some ["application/xml"] /\
  bodyOf out =
    "<?xml version=" +:+ dquote +:+ "1.0" +:+ dquote +:+ " encoding=" +:+ dquote
      +:+ "UTF-8" +:+ dquote +:+ "?>" +:+ newline
      +:+ "<Response>" +:+ newline
      +:+ "    <Message>Message received! Thank you.</Message>" +:+ newline
      +:+ "</Response>" /\
  dropLayout false (bodyOf out) = ackOneLine.
Proof.
  intros HPF messageSID fromNumber body H1 H2 H3 HF out.
  pose proof (extractParams_primary PostForm H1 H2 H3) as HEX.
  fold messageSID fromNumber body in HEX.
  assert (anyEmpty messageSID fromNumber body = false) as HAE
    by now apply anyEmpty_false.
  subst out. rewrite (handleSMS_saved env r st _ _ _ _ HPF HEX HAE HF).
  cbv zeta. unfold tableAfter, statusOf, contentTypeOf, bodyOf.
  cbn [fst snd].
  split.
  { now destruct (WriteErr env). }
  split; [reflexivity|]. split; [reflexivity|]. split; reflexivity.
Qed.

Lemma primary_fields_stored_witness :
  let out := handleSMS (calmEnv 7)
               (formPost "MessageSid=SM123&From=%2B15551234567&Body=Hello")
               emptyWorld in
  tableAfter out =
    [{| id := 1; message_sid := "SM123"; from_number := "+15551234567";
        body := "Hello"; received_at := time.Now 7 |}] /\
  statusOf out = Some 200 /\
  contentTypeOf out = Some ["application/xml"] /\
  bodyOf out = twimlResponse /\
  dropLayout false (bodyOf out) = ackOneLine.
Proof.
  pose (r := formPost "MessageSid=SM123&From=%2B15551234567&Body=Hello").
  assert (http.ParseForm r =
            ({[ "MessageSid" := ["SM123"]; "From" := ["+15551234567"];
                "Body" := ["Hello"] ]}, None)) as HPF
    by (vm_compute; reflexivity).
  apply (primary_fields_stored (calmEnv 7) r emptyWorld _ HPF).
  - vm_compute; discriminate.
  - vm_compute; discriminate.
  - vm_compute; discriminate.
  - reflexivity.
Defined.

(** ** The length-enforcing variant *)

Lemma smsHandler_db env r st :
  db (snd (smsHandler env r st)) =
  match accepted r with
  | Some (messageSid, from, body) =>
      fst (Exec_insert env (db st) messageSid from body
             (time.toUTC (time.Now (Clock env))))
  | None => db st
  end.
Proof.
  unfold smsHandler, accepted, anyEmpty, tooLong.
  destruct (http.ParseForm r) as [pf [e|]]; [reflexivity|].
  destruct (_ || _ || _); [reflexivity|].
  destruct (_ || _ || _); [reflexivity|].
  destruct (Exec_insert _ _ _ _ _ _) as [d [e|]]; reflexivity.
Qed.

(** ** The timestamp *)

(** C5, as stated, fails for [handleSMS]: the timestamp it hands to the
    INSERT is [time.Now()], which is in the local zone, not in UTC. *)
Lemma received_at_is_local :
  let out := handleSMS (calmEnv 7)
               (formPost "MessageSid=SM123&From=%2B15551234567&Body=Hello")
               emptyWorld in
  statementsAfter out =
    [Insert "SM123" "+15551234567" "Hello"
       {| time.instant := 7; time.location := time.Local |}] /\
  ~ (forall row, In row (tableAfter out) ->
       time.location (received_at row) = time.UTC).
Proof.
  cbv zeta. split; [vm_compute; reflexivity|].
  intros H.
  specialize (H {| id := 1; message_sid := "SM123"; from_number := "+15551234567";
                   body := "Hello"; received_at := time.Now 7 |}).
  assert (time.Local = time.UTC) as Habs by (apply H; vm_compute; left; reflexivity).
  discriminate Habs.
Qed.

(** C5, amended. For every request that passes validation, the timestamp
    [handleSMS] binds to the INSERT is the clock reading of its own
    [time.Now()], in the server's local zone (it is not converted to UTC);
    it is no function of the request.  The variant [smsHandler] binds
    [time.Now().UTC()]: the clock reading in UTC. *)
Theorem received_at_is_clock_reading env r st messageSID fromNumber body :
  validated r = Some (messageSID, fromNumber, body) ->
  statementsAfter (handleSMS env r st) =
    statements (db st) ++
      [Insert messageSID fromNumber body
         {| time.instant := Clock env; time.location := time.Local |}] /\
  (forall row, tableAfter (handleSMS env r st) = sms_messages (db st) ++ [row] ->
     received_at row = {| time.instant := Clock env; time.location := time.Local |}) /\
  (forall messageSid from body',
     accepted r = Some (messageSid, from, body') ->
     statementsAfter (smsHandler env r st) =
       statements (db st) ++
         [Insert messageSid from body'
            {| time.instant := Clock env; time.location := time.UTC |}]).
Proof.
  intros Hv. unfold statementsAfter, tableAfter.
  rewrite handleSMS_db, Hv, Exec_insert_statements, Exec_insert_table.
  split; [reflexivity|]. split.
  - intros row. destruct (Faults env _).
    + intros Hrow. now apply app_singleton_neq in Hrow.
    + intros Hrow. now apply app_inv_head in Hrow as [= <-].
  - intros a b c Ha. rewrite smsHandler_db, Ha, Exec_insert_statements. reflexivity.
Qed.

Lemma received_at_is_clock_reading_witness :
  let r := formPost "MessageSid=SM123&From=%2B15551234567&Body=Hello" in
  statementsAfter (handleSMS (calmEnv 7) r emptyWorld) =
    [Insert "SM123" "+15551234567" "Hello"
       {| time.instant := 7; time.location := time.Local |}] /\
  statementsAfter (smsHandler (calmEnv 7) r emptyWorld) =
    [Insert "SM123" "+15551234567" "Hello"
       {| time.instant := 7; time.location := time.UTC |}].
Proof.
  pose (r := formPost "MessageSid=SM123&From=%2B15551234567&Body=Hello").
  assert (validated r = Some ("SM123", "+15551234567", "Hello")) as Hv
    by (vm_compute; reflexivity).
  destruct (received_at_is_clock_reading (calmEnv 7) r emptyWorld _ _ _ Hv)
    as (H1 & _ & H3).
  split; [exact H1|].
  apply H3. vm_compute; reflexivity.
Defined.

(** ** Maximum lengths *)

(** C6, as stated, fails for [handleSMS]: it has no length check, so a
    request whose message identifier has 51 bytes is stored and answered
    200. *)
Lemma oversized_sid_is_stored :
  let out := handleSMS (calmEnv 0)
               (formPost ("MessageSid=" +:+ longSid +:+ "&From=1555&Body=Hi"))
               emptyWorld in
  String.length longSid = 51%nat /\
  statusOf out = Some 200 /\
  tableAfter out =
    [{| id := 1; message_sid := longSid; from_number := "1555"; body := "Hi";
        received_at := time.Now 0 |}].
Proof. cbv zeta. repeat split; vm_compute; reflexivity. Qed.

(** C6, amended. In the variant [smsHandler], a request whose
    [MessageSid] has more than 50 bytes, whose [From] has more than 15 or
    whose [Body] has more than 1600 is answered 400 and nothing is sent to
    the database; the text is "Input length exceeded" when none of the
    three fields is empty.  [handleSMS] enforces no maximum: every request
    that passes its validation reaches the INSERT with its fields as
    extracted. *)
Theorem oversized_input_rejected env r st PostForm :
  http.ParseForm r = (PostForm, None) ->
  let from := http.PostFormValue PostForm "From" in
  let body := http.PostFormValue PostForm "Body" in
  let messageSid := http.PostFormValue PostForm "MessageSid" in
  (50 < String.length messageSid \/ 15 < String.length from
   \/ 1600 < String.length body)%nat ->
  let out := smsHandler env r st in
  statusOf out = Some 400 /\
  snd out = st /\
  (messageSid <> "" -> from <> "" -> body <> "" ->
     bodyOf out = "Input length exceeded" +:+ newline) /\
  (messageSid = "" \/ from = "" \/ body = "" ->
     bodyOf out = "Missing required fields" +:+ newline) /\
  (forall a b c, validated r = Some (a, b, c) ->
     statementsAfter (handleSMS env r st) =
       statements (db st) ++ [Insert a b c (time.Now (Clock env))]).
Proof.
  intros HPF from body messageSid Hlong out.
  assert (tooLong messageSid from body = true) as HTL.
  { unfold tooLong. rewrite !orb_true_iff, !Z.ltb_lt. lia. }
  unfold tooLong in HTL.
  subst out. unfold smsHandler. rewrite HPF.
  fold from body messageSid. rewrite HTL.
  destruct (String.eqb from "" || String.eqb body "" || String.eqb messageSid "")
    eqn:HAE.
  - repeat split.
    + intros H1 H2 H3. exfalso.
      apply (anyEmpty_true from body messageSid) in HAE. tauto.
    + intros a b c Hv. unfold statementsAfter.
      rewrite handleSMS_db, Hv. apply Exec_insert_statements.
  - apply (anyEmpty_false from body messageSid) in HAE.
    repeat split.
    + intros Hempty. exfalso. tauto.
    + intros a b c Hv. unfold statementsAfter.
      rewrite handleSMS_db, Hv. apply Exec_insert_statements.
Qed.

Lemma oversized_input_rejected_witness :
  let r := formPost ("MessageSid=" +:+ longSid +:+ "&From=1555&Body=Hi") in
  let out := smsHandler (calmEnv 0) r emptyWorld in
  statusOf out = Some 400 /\
  snd out = emptyWorld /\
  bodyOf out = "Input length exceeded" +:+ newline /\
  statementsAfter (handleSMS (calmEnv 0) r emptyWorld) =
    [Insert longSid "1555" "Hi" (time.Now 0)].
Proof.
  pose (r := formPost ("MessageSid=" +:+ longSid +:+ "&From=1555&Body=Hi")).
  assert (http.ParseForm r =
            ({[ "MessageSid" := [longSid]; "From" := ["1555"]; "Body" := ["Hi"] ]},
             None)) as HPF by (vm_compute; reflexivity).
  destruct (oversized_input_rejected (calmEnv 0) r emptyWorld _ HPF)
    as (H1 & H2 & H3 & _ & H4).
  { left. vm_compute. lia. }
  split; [exact H1|]. split; [exact H2|]. split.
  - apply H3; vm_compute; discriminate.
  - apply (H4 longSid "1555" "Hi"). vm_compute; reflexivity.
Defined.

(** ** Repeated deliveries *)

(** C8. Persistence is not idempotent.  Two requests that pass validation
    with the same message identifier, handled one after the other with the
    driver accepting both statements, each send their own INSERT and
    nothing else; the table gains two rows with that identifier, under
    consecutive keys, whatever rows (with this identifier or not) it held
    before. *)
Theorem same_sid_twice_two_rows env1 env2 r1 r2 st sid from1 body1 from2 body2 :
  validated r1 = Some (sid, from1, body1) ->
  validated r2 = Some (sid, from2, body2) ->
  Faults env1 (length (statements (db st))) = None ->
  Faults env2 (S (length (statements (db st)))) = None ->
  let st1 := snd (handleSMS env1 r1 st) in
  let st2 := snd (handleSMS env2 r2 st1) in
  let row1 := {| id := auto_increment (db st); message_sid := sid;
                 from_number := from1; body := body1;
                 received_at := time.Now (Clock env1) |} in
  let row2 := {| id := auto_increment (db st) + 1; message_sid := sid;
                 from_number := from2; body := body2;
                 received_at := time.Now (Clock env2) |} in
  sms_messages (db st2) = sms_messages (db st) ++ [row1; row2] /\
  row1 <> row2 /\
  statements (db st2) =
    statements (db st) ++
      [Insert sid from1 body1 (time.Now (Clock env1));
       Insert sid from2 body2 (time.Now (Clock env2))].
Proof.
  intros Hv1 Hv2 HF1 HF2 st1 st2 row1 row2.
  assert (db st1 = fst (Exec_insert env1 (db st) sid from1 body1 (time.Now (Clock env1))))
    as H1 by (subst st1; now rewrite handleSMS_db, Hv1).
  assert (db st2 = fst (Exec_insert env2 (db st1) sid from2 body2 (time.Now (Clock env2))))
    as H2 by (subst st2; now rewrite handleSMS_db, Hv2).
  assert (length (statements (db st1)) = S (length (statements (db st)))) as Hlen
    by (rewrite H1, Exec_insert_statements, length_app, Nat.add_1_r; reflexivity).
  split; [|split].
  - rewrite H2, Exec_insert_table, Hlen, HF2, H1, Exec_insert_table, HF1.
    unfold Exec_insert. rewrite HF1. cbn [fst auto_increment].
    now rewrite <- app_assoc.
  - intros Heq. apply (f_equal id) in Heq. cbn in Heq. lia.
  - rewrite H2, Exec_insert_statements, H1, Exec_insert_statements.
    now rewrite <- app_assoc.
Qed.

Lemma same_sid_twice_two_rows_witness :
  let r := formPost "MessageSid=SM123&From=%2B15551234567&Body=Hello" in
  let st1 := snd (handleSMS (calmEnv 7) r emptyWorld) in
  let st2 := snd (handleSMS (calmEnv 8) r st1) in
  sms_messages (db st2) =
    [{| id := 1; message_sid := "SM123"; from_number := "+15551234567";
        body := "Hello"; received_at := time.Now 7 |};
     {| id := 2; message_sid := "SM123"; from_number := "+15551234567";
        body := "Hello"; received_at := time.Now 8 |}].
Proof.
  pose (r := formPost "MessageSid=SM123&From=%2B15551234567&Body=Hello").
  assert (validated r = Some ("SM123", "+15551234567", "Hello")) as Hv
    by (vm_compute; reflexivity).
  exact (proj1 (same_sid_twice_two_rows (calmEnv 7) (calmEnv 8) r r emptyWorld
                  _ _ _ _ _ Hv Hv eq_refl eq_refl)).
Defined.

(** ** Determinism *)

Lemma handleSMS_reply_invariant env1 env2 r st1 st2 :
  (Faults env1 (length (statements (db st1))) = None <->
   Faults env2 (length (statements (db st2))) = None) ->
  fst (handleSMS env1 r st1) = fst (handleSMS env2 r st2).
Proof.
  intros Hsame. unfold handleSMS.
  destruct (http.ParseForm r) as [pf [e|]]; [reflexivity|].
  destruct (extractParams pf) as [e|[[a b] c]]; [reflexivity|].
  destruct (_ || _ || _); [reflexivity|].
  unfold saveSMS, Exec_insert. cbn [MessageSID FromNumber Body ReceivedAt].
  destruct (Faults env1 _) as [e1|] eqn:H1, (Faults env2 _) as [e2|] eqn:H2.
  - reflexivity.
  - destruct Hsame as [_ Hsame]. discriminate (Hsame eq_refl).
  - destruct Hsame as [Hsame _]. discriminate (Hsame eq_refl).
  - now destruct (WriteErr env1), (WriteErr env2).
Qed.

(** What [ParseForm] makes of a request depends on the body, on the
    content type, and on whether the header and the URL query parse. *)
Lemma ParseForm_agree r1 r2 :
  http.Body r1 = http.Body r2 ->
  http.MediaType r1 = http.MediaType r2 ->
  (http.MediaTypeErr r1 = None <-> http.MediaTypeErr r2 = None) ->
  (snd (url.ParseQuery (http.RawQuery r1)) = None <->
   snd (url.ParseQuery (http.RawQuery r2)) = None) ->
  fst (http.ParseForm r1) = fst (http.ParseForm r2) /\
  (snd (http.ParseForm r1) = None <-> snd (http.ParseForm r2) = None).
Proof.
  intros HB HM HE HQ. unfold http.ParseForm, http.parsePostForm.
  rewrite HB, HM.
  destruct (url.ParseQuery (http.RawQuery r1)) as [m1 q1],
           (url.ParseQuery (http.RawQuery r2)) as [m2 q2].
  cbn [snd] in HQ.
  assert (forall (e1 e2 : option error),
            (e1 = None <-> e2 = None) ->
            ((if e1 is Some _ then e1 else q1) = None <->
             (if e2 is Some _ then e2 else q2) = None)) as Hq.
  { intros [x|] [y|] [H1 H2]; cbn; try tauto;
      split; intros H; try discriminate H;
      first [ discriminate (H1 eq_refl) | discriminate (H2 eq_refl) ]. }
  destruct (http.MediaType r2).
  - destruct (http.maxFormSize <? _); cbn [fst snd].
    + split; [reflexivity|]. split; discriminate.
    + destruct (url.ParseQuery (http.Body r2)) as [vs e]. cbn [fst snd].
      split; [reflexivity|]. apply Hq.
      destruct (http.MediaTypeErr r1) as [x|], (http.MediaTypeErr r2) as [y|],
        HE as [H1 H2]; try tauto;
        split; intros H; try discriminate H;
        first [ discriminate (H1 eq_refl) | discriminate (H2 eq_refl) ].
  - cbn [fst snd]. split; [reflexivity|]. now apply Hq.
  - cbn [fst snd]. split; [reflexivity|]. now apply Hq.
Qed.

Lemma handleSMS_reply_agree env1 env2 r1 r2 st1 st2 :
  fst (http.ParseForm r1) = fst (http.ParseForm r2) ->
  (snd (http.ParseForm r1) = None <-> snd (http.ParseForm r2) = None) ->
  (Faults env1 (length (statements (db st1))) = None <->
   Faults env2 (length (statements (db st2))) = None) ->
  fst (handleSMS env1 r1 st1) = fst (handleSMS env2 r2 st2) /\
  validated r1 = validated r2.
Proof.
  intros Hpf Herr Hsame. unfold handleSMS, validated.
  destruct (http.ParseForm r1) as [pf1 e1], (http.ParseForm r2) as [pf2 e2].
  cbn [fst snd] in Hpf, Herr. subst pf2.
  destruct e1 as [e1|], e2 as [e2|].
  - now split.
  - destruct Herr as [_ Herr]. discriminate (Herr eq_refl).
  - destruct Herr as [Herr _]. discriminate (Herr eq_refl).
  - destruct (extractParams pf1) as [e|[[a b] c]]; [now split|].
    unfold anyEmpty. destruct (_ || _ || _); [now split|].
    split; [|reflexivity].
    unfold saveSMS, Exec_insert. cbn [MessageSID FromNumber Body ReceivedAt].
    destruct (Faults env1 _) as [x|] eqn:H1, (Faults env2 _) as [y|] eqn:H2.
    + reflexivity.
    + destruct Hsame as [_ Hsame]. discriminate (Hsame eq_refl).
    + destruct Hsame as [Hsame _]. discriminate (Hsame eq_refl).
    + now destruct (WriteErr env1), (WriteErr env2).
Qed.

(** C10, as stated, fails: two requests with the same body bytes are
    answered differently when the URL query of one of them does not
    parse, and when one of them is not sent as a form. *)
Lemma same_body_other_query :
  let r1 := formPost "MessageSid=SM123&From=%2B15551234567&Body=Hello" in
  let r2 := withQuery r1 "a;b" in
  let r3 := {| http.MediaType := http.OtherMedia; http.MediaTypeErr := None;
               http.Body := http.Body r1; http.RawQuery := "" |} in
  http.Body r1 = http.Body r2 /\ http.Body r1 = http.Body r3 /\
  statusOf (handleSMS (calmEnv 0) r1 emptyWorld) = Some 200 /\
  statusOf (handleSMS (calmEnv 0) r2 emptyWorld) = Some 400 /\
  statusOf (handleSMS (calmEnv 0) r3 emptyWorld) = Some 400 /\
  ~ (statusOf (handleSMS (calmEnv 0) r1 emptyWorld) =
     statusOf (handleSMS (calmEnv 0) r2 emptyWorld)).
Proof.
  cbv zeta. split; [reflexivity|]. split; [reflexivity|].
  split; [vm_compute; reflexivity|]. split; [vm_compute; reflexivity|].
  split; [vm_compute; reflexivity|].
  vm_compute. discriminate.
Qed.

(** C10, amended. The outcome of [handleSMS] is a function of the body
    bytes, of the content type, of whether the Content-Type header and the
    URL query parse, and of whether the driver accepts the INSERT.  Two
    runs on requests with the same body bytes and the same content type,
    whose headers both parse or both do not and whose URL queries both
    parse or both do not (the queries may differ), in any two process
    states and at any two clock readings, with the driver either accepting
    in both or refusing in both, give the same reply (status, headers,
    body) and append rows that agree on message identifier, sender and
    body text; the rows may differ in [received_at] (and in the surrogate
    key, which the table assigns). *)
Theorem handleSMS_deterministic env1 env2 r1 r2 st1 st2 :
  http.Body r1 = http.Body r2 ->
  http.MediaType r1 = http.MediaType r2 ->
  (http.MediaTypeErr r1 = None <-> http.MediaTypeErr r2 = None) ->
  (snd (url.ParseQuery (http.RawQuery r1)) = None <->
   snd (url.ParseQuery (http.RawQuery r2)) = None) ->
  (Faults env1 (length (statements (db st1))) = None <->
   Faults env2 (length (statements (db st2))) = None) ->
  let out1 := handleSMS env1 r1 st1 in
  let out2 := handleSMS env2 r2 st2 in
  statusOf out1 = statusOf out2 /\
  bodyOf out1 = bodyOf out2 /\
  http.Header (fst out1) = http.Header (fst out2) /\
  exists new1 new2,
    tableAfter out1 = sms_messages (db st1) ++ new1 /\
    tableAfter out2 = sms_messages (db st2) ++ new2 /\
    map fieldsOf new1 = map fieldsOf new2.
Proof.
  intros HB HM HE HQ Hsame out1 out2.
  destruct (ParseForm_agree r1 r2 HB HM HE HQ) as [Hpf Herr].
  destruct (handleSMS_reply_agree env1 env2 r1 r2 st1 st2 Hpf Herr Hsame)
    as [Hreply Hv].
  subst out1 out2. unfold statusOf, bodyOf, tableAfter.
  rewrite Hreply.
  split; [reflexivity|]. split; [reflexivity|]. split; [reflexivity|].
  rewrite !handleSMS_db, Hv.
  destruct (validated r2) as [[[a b] c]|].
  - rewrite !Exec_insert_table.
    destruct (Faults env1 _) as [e1|] eqn:H1, (Faults env2 _) as [e2|] eqn:H2.
    + exists [], []. now rewrite !app_nil_r.
    + destruct Hsame as [_ Hsame]. discriminate (Hsame eq_refl).
    + destruct Hsame as [Hsame _]. discriminate (Hsame eq_refl).
    + eexists [_], [_]. repeat split.
  - exists [], []. now rewrite !app_nil_r.
Qed.

Lemma handleSMS_deterministic_witness :
  let r1 := formPost "MessageSid=SM123&From=%2B15551234567&Body=Hello" in
  let r2 := withQuery r1 "MessageSid=other&retry=1" in
  let st := snd (handleSMS (calmEnv 7) r1 emptyWorld) in
  let out1 := handleSMS (calmEnv 7) r1 emptyWorld in
  let out2 := handleSMS (calmEnv 99) r2 st in
  statusOf out1 = statusOf out2 /\
  bodyOf out1 = bodyOf out2 /\
  http.Header (fst out1) = http.Header (fst out2) /\
  exists new1 new2,
    tableAfter out1 = sms_messages (db emptyWorld) ++ new1 /\
    tableAfter out2 = sms_messages (db st) ++ new2 /\
    map fieldsOf new1 = map fieldsOf new2.
Proof.
  apply (handleSMS_deterministic (calmEnv 7) (calmEnv 99)
           (formPost "MessageSid=SM123&From=%2B15551234567&Body=Hello")
           (withQuery (formPost "MessageSid=SM123&From=%2B15551234567&Body=Hello")
              "MessageSid=other&retry=1")
           emptyWorld
           (snd (handleSMS (calmEnv 7)
                   (formPost "MessageSid=SM123&From=%2B15551234567&Body=Hello")
                   emptyWorld)));
    reflexivity.
Defined.

(** * Further properties of the code *)

(** ** Strings and query strings *)

Lemma append_cons c (s1 s2 : string) : String c s1 +:+ s2 = String c (s1 +:+ s2).
Proof. reflexivity. Qed.

Lemma append_assoc (s1 s2 s3 : string) : (s1 +:+ s2) +:+ s3 = s1 +:+ (s2 +:+ s3).
Proof.
  induction s1 as [|c s1 IH]; [reflexivity|].
  rewrite !append_cons. now rewrite IH.
Qed.

Lemma append_length (s1 s2 : string) :
  String.length (s1 +:+ s2) = (String.length s1 + String.length s2)%nat.
Proof.
  induction s1 as [|c s1 IH]; [reflexivity|].
  rewrite append_cons. cbn [String.length]. now rewrite IH.
Qed.

Lemma Contains_app s1 s2 c :
  strings.Contains (s1 +:+ s2) c = strings.Contains s1 c || strings.Contains s2 c.
Proof.
  induction s1 as [|d s1 IH]; [reflexivity|].
  rewrite append_cons. cbn [strings.Contains]. now rewrite IH, orb_assoc.
Qed.

Lemma pieces_no_sep s sep :
  strings.Contains s sep = false -> strings.pieces s sep = [s].
Proof.
  induction s as [|c s IH]; cbn; [reflexivity|].
  intros H. apply orb_false_iff in H as [Hc Hs].
  rewrite Hc, (IH Hs). reflexivity.
Qed.

Lemma pieces_app_sep s1 s2 sep :
  strings.Contains s1 sep = false ->
  strings.pieces (s1 +:+ String sep s2) sep = s1 :: strings.pieces s2 sep.
Proof.
  induction s1 as [|c s1 IH].
  - intros _. change ("" +:+ String sep s2) with (String sep s2).
    cbn [strings.pieces]. now rewrite Ascii.eqb_refl.
  - rewrite append_cons. cbn [strings.pieces strings.Contains].
    intros H. apply orb_false_iff in H as [Hc Hs].
    rewrite Hc, (IH Hs). reflexivity.
Qed.

Lemma Cut_app k v sep :
  strings.Contains k sep = false ->
  strings.Cut (k +:+ String sep v) sep = (k, v, true).
Proof.
  induction k as [|c k IH].
  - intros _. change ("" +:+ String sep v) with (String sep v).
    cbn [strings.Cut]. now rewrite Ascii.eqb_refl.
  - rewrite append_cons. cbn [strings.Cut strings.Contains].
    intros H. apply orb_false_iff in H as [Hc Hk].
    rewrite Hc, (IH Hk). reflexivity.
Qed.

Lemma Cut_no_sep k sep :
  strings.Contains k sep = false -> strings.Cut k sep = (k, "", false).
Proof.
  induction k as [|c k IH]; cbn; [reflexivity|].
  intros H. apply orb_false_iff in H as [Hc Hk].
  rewrite Hc, (IH Hk). reflexivity.
Qed.

(** The loop body on a piece [key=value] whose two sides are well formed. *)
Lemma parseQuery_step_field m err k v :
  k <> "" ->
  strings.Contains k ";" = false -> strings.Contains k "=" = false ->
  url.checkEscapes k = None ->
  strings.Contains v ";" = false -> url.checkEscapes v = None ->
  url.parseQuery_step (m, err) (k +:+ String "=" v) =
    (<[url.decode k := default [] (m !! url.decode k) ++ [url.decode v]]> m, err).
Proof.
  intros Hk Hk1 Hk2 Hk3 Hv1 Hv2. unfold url.parseQuery_step.
  rewrite Contains_app. cbn [strings.Contains]. rewrite Hk1, Hv1. cbn [orb Ascii.eqb].
  replace (Ascii.eqb "=" ";") with false by reflexivity. cbn [orb].
  assert (String.eqb (k +:+ String "=" v) "" = false) as ->.
  { apply String.eqb_neq. destruct k; [contradiction | discriminate]. }
  rewrite (Cut_app k v "=" Hk2). unfold url.QueryUnescape. now rewrite Hk3, Hv2.
Qed.

Lemma cleanField_spec s :
  cleanField s = true <->
  strings.Contains s "&" = false /\ strings.Contains s ";" = false /\
  url.checkEscapes s = None.
Proof.
  unfold cleanField. rewrite !andb_true_iff, !negb_true_iff.
  destruct (url.checkEscapes s); intuition congruence.
Qed.

Lemma Count_app s1 s2 c :
  strings.Count (s1 +:+ s2) c = (strings.Count s1 c + strings.Count s2 c)%nat.
Proof.
  induction s1 as [|d s1 IH]; [reflexivity|].
  rewrite append_cons. cbn [strings.Count].
  destruct (Ascii.eqb d c); cbn; now rewrite IH.
Qed.

Lemma Count_none s c : strings.Contains s c = false -> strings.Count s c = O.
Proof.
  induction s as [|d s IH]; [reflexivity|]. cbn [strings.Contains strings.Count].
  intros H. apply orb_false_iff in H as [Hd Hs]. rewrite Hd. now apply IH.
Qed.

Lemma Count_app_sep s1 s2 sep :
  strings.Count (s1 +:+ String sep s2) sep =
  S (strings.Count s1 sep + strings.Count s2 sep).
Proof.
  rewrite Count_app. cbn [strings.Count]. rewrite Ascii.eqb_refl. lia.
Qed.

(** What [url.ParseQuery] makes of the three-field form. *)
Lemma ParseQuery_smsForm a b c :
  cleanField a = true -> cleanField b = true -> cleanField c = true ->
  url.ParseQuery (smsForm a b c) =
    (<[ "Body" := [url.decode c] ]>
       (<[ "From" := [url.decode b] ]>
          (<[ "MessageSid" := [url.decode a] ]> ∅)), None).
Proof.
  intros Ha Hb Hc.
  apply cleanField_spec in Ha as (Ha1 & Ha2 & Ha3).
  apply cleanField_spec in Hb as (Hb1 & Hb2 & Hb3).
  apply cleanField_spec in Hc as (Hc1 & Hc2 & Hc3).
  unfold url.ParseQuery.
  replace (smsForm a b c)
    with (("MessageSid=" +:+ a) +:+ String "&" (("From=" +:+ b) +:+ String "&" ("Body=" +:+ c)))
    by (unfold smsForm; rewrite !append_assoc; reflexivity).
  assert (strings.Count
            (("MessageSid=" +:+ a) +:+
             String "&" (("From=" +:+ b) +:+ String "&" ("Body=" +:+ c))) "&" = 2%nat)
    as ->.
  { rewrite !Count_app_sep, !Count_app.
    rewrite (Count_none a), (Count_none b), (Count_none c) by assumption.
    reflexivity. }
  change (negb (url.urlParamsWithinMax (Z.of_nat 2 + 1))) with false. cbv iota.
  rewrite pieces_app_sep by (rewrite Contains_app; cbn; exact Ha1).
  rewrite pieces_app_sep by (rewrite Contains_app; cbn; exact Hb1).
  rewrite pieces_no_sep by (rewrite Contains_app; cbn; exact Hc1).
  cbn [fold_left].
  change ("MessageSid=" +:+ a) with ("MessageSid" +:+ String "=" a).
  change ("From=" +:+ b) with ("From" +:+ String "=" b).
  change ("Body=" +:+ c) with ("Body" +:+ String "=" c).
  rewrite !parseQuery_step_field by (assumption || reflexivity || discriminate).
  cbn [url.decode Ascii.eqb].
  repeat f_equal.
Qed.

(** *** Escaping and unescaping *)

Ltac each_byte c := destruct c as [[] [] [] [] [] [] [] []].

Lemma decode_QueryEscape_cons c s :
  url.decode (urlencode.QueryEscape (String c s)) =
  String c (url.decode (urlencode.QueryEscape s)).
Proof. each_byte c; reflexivity. Qed.

Lemma checkEscapes_QueryEscape_cons c s :
  url.checkEscapes (urlencode.QueryEscape (String c s)) =
  url.checkEscapes (urlencode.QueryEscape s).
Proof. each_byte c; reflexivity. Qed.

Lemma Contains_QueryEscape_cons c s d :
  d = "&"%char \/ d = ";"%char ->
  strings.Contains (urlencode.QueryEscape (String c s)) d =
  strings.Contains (urlencode.QueryEscape s) d.
Proof. intros [-> | ->]; each_byte c; reflexivity. Qed.

Lemma decode_QueryEscape s : url.decode (urlencode.QueryEscape s) = s.
Proof.
  induction s as [|c s IH]; [reflexivity|].
  now rewrite decode_QueryEscape_cons, IH.
Qed.

Lemma cleanField_QueryEscape s : cleanField (urlencode.QueryEscape s) = true.
Proof.
  apply cleanField_spec.
  induction s as [|c s (IH1 & IH2 & IH3)]; [now repeat split|].
  rewrite !Contains_QueryEscape_cons, checkEscapes_QueryEscape_cons by tauto.
  now repeat split.
Qed.

(** *** What makes [url.ParseQuery] fail *)

Lemma parseQuery_step_sticky acc p :
  snd acc <> None -> snd (url.parseQuery_step acc p) <> None.
Proof.
  destruct acc as [m [e|]]; [intros _|contradiction].
  unfold url.parseQuery_step.
  destruct (strings.Contains p ";"); [discriminate|].
  destruct (String.eqb p ""); [discriminate|].
  destruct (strings.Cut p "=") as [[k v] found].
  destruct (url.QueryUnescape k) as [k' [e1|]]; [discriminate|].
  destruct (url.QueryUnescape v) as [v' [e2|]]; discriminate.
Qed.

Lemma parseQuery_fold_sticky ps acc :
  snd acc <> None -> snd (fold_left url.parseQuery_step ps acc) <> None.
Proof.
  revert acc. induction ps as [|p ps IH]; intros acc H; [exact H|].
  cbn [fold_left]. apply IH. now apply parseQuery_step_sticky.
Qed.

Lemma Cut_spec p sep k v found :
  strings.Cut p sep = (k, v, found) ->
  if found then p = k +:+ String sep v else p = k /\ v = "".
Proof.
  revert k v found. induction p as [|c p IH]; intros k v found.
  - cbn. intros [= <- <- <-]. now split.
  - cbn [strings.Cut]. destruct (Ascii.eqb c sep) eqn:Hc.
    + apply Ascii.eqb_eq in Hc. subst c. now intros [= <- <- <-].
    + destruct (strings.Cut p sep) as [[k' v'] found'].
      specialize (IH k' v' found' eq_refl).
      intros [= <- <- <-]. destruct found'.
      * rewrite append_cons. now rewrite IH.
      * destruct IH as [-> ->]. now split.
Qed.

(** Escapes never straddle a separator: two well-escaped strings joined
    by a byte other than [%] are well escaped. *)
Lemma checkEscapes_app_sep k c v :
  c <> "%"%char ->
  url.checkEscapes k = None -> url.checkEscapes v = None ->
  url.checkEscapes (k +:+ String c v) = None.
Proof.
  intros Hc. remember (String.length k) as n eqn:Hn. revert k Hn.
  induction n as [n IH] using lt_wf_ind. intros k -> Hk Hv.
  destruct k as [|a k].
  - change ("" +:+ String c v) with (String c v). cbn [url.checkEscapes].
    apply Ascii.eqb_neq in Hc. now rewrite Hc.
  - rewrite append_cons. cbn [url.checkEscapes] in *.
    destruct (Ascii.eqb a "%").
    + destruct k as [|h1 [|h2 k']]; try discriminate.
      rewrite !append_cons.
      destruct (url.ishex h1 && url.ishex h2); [|discriminate].
      apply (IH (String.length k')); [cbn; lia | reflexivity | assumption | assumption].
    + apply (IH (String.length k)); [cbn; lia | reflexivity | assumption | assumption].
Qed.

Lemma checkEscapes_Cut p k v found :
  strings.Cut p "=" = (k, v, found) ->
  url.checkEscapes k = None -> url.checkEscapes v = None ->
  url.checkEscapes p = None.
Proof.
  intros HC Hk Hv. apply Cut_spec in HC. destruct found.
  - subst p. now apply checkEscapes_app_sep.
  - destruct HC as [-> _]. exact Hk.
Qed.

Lemma Join_pieces s sep : Join (strings.pieces s sep) sep = s.
Proof.
  induction s as [|c s IH]; [reflexivity|].
  cbn [strings.pieces]. destruct (Ascii.eqb c sep) eqn:Hc.
  - apply Ascii.eqb_eq in Hc. subst c.
    destruct (strings.pieces s sep) as [|p ps] eqn:Hps; cbn [Join] in *.
    + now subst s.
    + now rewrite IH.
  - destruct (strings.pieces s sep) as [|p ps] eqn:Hps; cbn [Join] in *.
    + now subst s.
    + destruct ps as [|q qs]; [now subst s|].
      rewrite append_cons. now rewrite IH.
Qed.

Lemma checkEscapes_Join ps sep :
  sep <> "%"%char ->
  Forall (fun p => url.checkEscapes p = None) ps ->
  url.checkEscapes (Join ps sep) = None.
Proof.
  intros Hsep. induction 1 as [|p ps Hp Hps IH]; [reflexivity|].
  destruct ps as [|q qs]; [exact Hp|].
  change (Join (p :: q :: qs) sep) with (p +:+ String sep (Join (q :: qs) sep)).
  now apply checkEscapes_app_sep.
Qed.

(** A piece the loop takes without error: no semicolon, and both sides
    of its first [=] unescape. *)
Lemma parseQuery_step_ok m p m' :
  url.parseQuery_step (m, None) p = (m', None) ->
  strings.Contains p ";" = false /\ url.checkEscapes p = None.
Proof.
  unfold url.parseQuery_step.
  destruct (strings.Contains p ";") eqn:Hsemi; [discriminate|].
  destruct (String.eqb p "") eqn:Hp.
  { apply String.eqb_eq in Hp. subst p. now split. }
  intros H. split; [reflexivity|]. revert H.
  destruct (strings.Cut p "=") as [[k v] found] eqn:Hcut.
  unfold url.QueryUnescape.
  destruct (url.checkEscapes k) eqn:Hk; [discriminate|].
  destruct (url.checkEscapes v) eqn:Hv; [discriminate|].
  intros _.
  now apply (checkEscapes_Cut p k v found).
Qed.

Lemma parseQuery_fold_ok ps m m' :
  fold_left url.parseQuery_step ps (m, None) = (m', None) ->
  Forall (fun p => strings.Contains p ";" = false /\ url.checkEscapes p = None) ps.
Proof.
  revert m. induction ps as [|p ps IH]; intros m H; [constructor|].
  cbn [fold_left] in H.
  destruct (url.parseQuery_step (m, None) p) as [m1 [e|]] eqn:Hstep.
  - exfalso. apply (parseQuery_fold_sticky ps (m1, Some e)); [discriminate|].
    now rewrite H.
  - constructor; [now apply parseQuery_step_ok in Hstep | now apply (IH m1)].
Qed.

Lemma Contains_Join ps sep c :
  c <> sep ->
  Forall (fun p => strings.Contains p c = false) ps ->
  strings.Contains (Join ps sep) c = false.
Proof.
  intros Hc. induction 1 as [|p ps Hp Hps IH]; [reflexivity|].
  destruct ps as [|q qs]; [exact Hp|].
  change (Join (p :: q :: qs) sep) with (p +:+ String sep (Join (q :: qs) sep)).
  rewrite Contains_app. cbn [strings.Contains]. rewrite Hp, IH.
  apply Ascii.eqb_neq in Hc. rewrite Ascii.eqb_sym in Hc. now rewrite Hc.
Qed.

(** A query string that parses has no semicolon and no malformed escape. *)
Lemma ParseQuery_ok_wellformed s m :
  url.ParseQuery s = (m, None) ->
  strings.Contains s ";" = false /\ url.checkEscapes s = None.
Proof.
  unfold url.ParseQuery.
  destruct (negb (url.urlParamsWithinMax _)); [discriminate|].
  intros H. apply parseQuery_fold_ok in H.
  rewrite <- (Join_pieces s "&") at 1 2. split.
  - apply Contains_Join; [discriminate|].
    eapply Forall_impl; [exact H|]. now intros p [Hp _].
  - apply checkEscapes_Join; [discriminate|].
    eapply Forall_impl; [exact H|]. now intros p [_ Hp].
Qed.

(** ** [handleSMS] and the bytes of the request *)

(** The first exit of [handleSMS]. *)
Lemma invalid_form_outcome env r st :
  snd (http.ParseForm r) <> None ->
  statusOf (handleSMS env r st) = Some 400 /\
  bodyOf (handleSMS env r st) = "Invalid form data" +:+ newline /\
  db (snd (handleSMS env r st)) = db st /\
  exists err,
    log (snd (handleSMS env r st)) =
      log st ++ [TextErr "[WEBHOOK_INVALID_FORM] Failed to parse form data: " err].
Proof.
  destruct (http.ParseForm r) as [pf [e|]] eqn:HPF; [intros _|contradiction].
  rewrite (handleSMS_invalid_form env r st pf e HPF).
  repeat split. now exists e.
Qed.

Lemma ParseForm_body_error r :
  http.MediaType r = http.FormURLEncoded ->
  snd (url.ParseQuery (http.Body r)) <> None ->
  snd (http.ParseForm r) <> None.
Proof.
  intros HM HB. unfold http.ParseForm, http.parsePostForm. rewrite HM.
  destruct (http.maxFormSize <? _).
  - now destruct (url.ParseQuery (http.RawQuery r)).
  - destruct (url.ParseQuery (http.Body r)) as [vs [e|]]; [|contradiction].
    destruct (http.MediaTypeErr r), (url.ParseQuery (http.RawQuery r)); discriminate.
Qed.

(** X1. A form-encoded request whose body contains a semicolon or a [%]
    that is not followed by two hex digits, or that is longer than 10 MiB,
    is answered 400 "Invalid form data" by [handleSMS], whatever else it
    holds: nothing is sent to the database and one WEBHOOK_INVALID_FORM
    line is logged. *)
Theorem garbled_form_rejected env r st :
  http.MediaType r = http.FormURLEncoded ->
  strings.Contains (http.Body r) ";" = true \/
  url.checkEscapes (http.Body r) <> None \/
  http.maxFormSize < Z.of_nat (String.length (http.Body r)) ->
  let out := handleSMS env r st in
  statusOf out = Some 400 /\
  bodyOf out = "Invalid form data" +:+ newline /\
  db (snd out) = db st /\
  exists err,
    log (snd out) =
      log st ++ [TextErr "[WEBHOOK_INVALID_FORM] Failed to parse form data: " err].
Proof.
  intros HM Hbad out. subst out. apply invalid_form_outcome.
  destruct (Z.ltb_spec http.maxFormSize (Z.of_nat (String.length (http.Body r))))
    as [Hbig|Hsmall].
  - unfold http.ParseForm, http.parsePostForm. rewrite HM.
    apply Z.ltb_lt in Hbig. rewrite Hbig.
    now destruct (url.ParseQuery (http.RawQuery r)).
  - apply ParseForm_body_error; [exact HM|].
    destruct (url.ParseQuery (http.Body r)) as [m [e|]] eqn:HP; [discriminate|].
    apply ParseQuery_ok_wellformed in HP as [H1 H2].
    destruct Hbad as [Hbad | [Hbad | Hbad]]; [congruence | contradiction | lia].
Qed.

Lemma garbled_form_rejected_witness :
  let out := handleSMS (calmEnv 0)
               (formPost "MessageSid=SM1&From=1555&Body=50% off") emptyWorld in
  statusOf out = Some 400 /\
  bodyOf out = "Invalid form data" +:+ newline /\
  db (snd out) = db emptyWorld /\
  exists err,
    log (snd out) =
      log emptyWorld ++ [TextErr "[WEBHOOK_INVALID_FORM] Failed to parse form data: " err].
Proof.
  apply (garbled_form_rejected (calmEnv 0)
           (formPost "MessageSid=SM1&From=1555&Body=50% off") emptyWorld).
  - reflexivity.
  - right; left. vm_compute. discriminate.
Defined.

(** X2. [handleSMS] never reads a field from the URL query: sending the
    same request to another URL changes nothing, as long as both query
    strings parse.  A query string that does not parse fails the whole
    request with 400 "Invalid form data", however well formed the body. *)
Theorem url_query_not_read env r st q :
  snd (url.ParseQuery (http.RawQuery r)) = None ->
  (snd (url.ParseQuery q) = None ->
     handleSMS env (withQuery r q) st = handleSMS env r st) /\
  (snd (url.ParseQuery q) <> None ->
     statusOf (handleSMS env (withQuery r q) st) = Some 400 /\
     bodyOf (handleSMS env (withQuery r q) st) = "Invalid form data" +:+ newline /\
     db (snd (handleSMS env (withQuery r q) st)) = db st).
Proof.
  intros Hr.
  assert (http.parsePostForm (withQuery r q) = http.parsePostForm r) as HPP by reflexivity.
  split.
  - intros Hq. unfold handleSMS, http.ParseForm. rewrite HPP.
    cbn [http.RawQuery withQuery].
    destruct (http.parsePostForm r) as [pf err].
    destruct (url.ParseQuery q) as [m1 e1], (url.ParseQuery (http.RawQuery r)) as [m2 e2].
    cbn in Hq, Hr. now subst e1 e2.
  - intros Hq.
    destruct (invalid_form_outcome env (withQuery r q) st) as (H1 & H2 & H3 & _);
      [|now repeat split].
    unfold http.ParseForm. rewrite HPP. cbn [http.RawQuery withQuery].
    destruct (http.parsePostForm r) as [pf [e|]], (url.ParseQuery q) as [m1 e1];
      [discriminate | exact Hq].
Qed.

Lemma url_query_not_read_witness :
  let r := formPost "From=1555&Body=Hi" in
  handleSMS (calmEnv 0) (withQuery r "MessageSid=SM1") emptyWorld =
    handleSMS (calmEnv 0) r emptyWorld /\
  statusOf (handleSMS (calmEnv 0) r emptyWorld) = Some 400 /\
  statusOf (handleSMS (calmEnv 0)
              (withQuery (formPost "MessageSid=SM1&From=1555&Body=Hi") "a;b")
              emptyWorld) = Some 400.
Proof.
  split; [|split].
  - apply (url_query_not_read (calmEnv 0) (formPost "From=1555&Body=Hi") emptyWorld
             "MessageSid=SM1"); reflexivity.
  - vm_compute; reflexivity.
  - apply (url_query_not_read (calmEnv 0)
             (formPost "MessageSid=SM1&From=1555&Body=Hi") emptyWorld "a;b");
      [reflexivity | vm_compute; discriminate].
Defined.

Lemma ParseForm_formPost b :
  Z.of_nat (String.length b) <= http.maxFormSize ->
  http.ParseForm (formPost b) = url.ParseQuery b.
Proof.
  intros Hlen. unfold http.ParseForm, http.parsePostForm, formPost.
  cbn [http.MediaType http.Body http.MediaTypeErr http.RawQuery].
  apply Z.ltb_ge in Hlen. rewrite Hlen.
  destruct (url.ParseQuery b) as [vs e]. cbn. now destruct e.
Qed.

Lemma PostFormValue_smsForm a b c :
  let PostForm : Values :=
    <[ "Body" := [c] ]> (<[ "From" := [b] ]> (<[ "MessageSid" := [a] ]> ∅)) in
  http.PostFormValue PostForm "MessageSid" = a /\
  http.PostFormValue PostForm "From" = b /\
  http.PostFormValue PostForm "Body" = c.
Proof.
  cbv zeta. unfold http.PostFormValue. repeat split.
Qed.

(** The success exit for a form that holds the three provider keys. *)
Lemma primary_fields_stored_aux env r st PostForm :
  http.ParseForm r = (PostForm, None) ->
  http.PostFormValue PostForm "MessageSid" <> "" ->
  http.PostFormValue PostForm "From" <> "" ->
  http.PostFormValue PostForm "Body" <> "" ->
  Faults env (length (statements (db st))) = None ->
  tableAfter (handleSMS env r st) =
    sms_messages (db st) ++
      [{| id := auto_increment (db st);
          message_sid := http.PostFormValue PostForm "MessageSid";
          from_number := http.PostFormValue PostForm "From";
          body := http.PostFormValue PostForm "Body";
          received_at := time.Now (Clock env) |}] /\
  statusOf (handleSMS env r st) = Some 200.
Proof.
  intros HPF H1 H2 H3 HF.
  pose proof (extractParams_primary PostForm H1 H2 H3) as HEX.
  assert (anyEmpty (http.PostFormValue PostForm "MessageSid")
            (http.PostFormValue PostForm "From")
            (http.PostFormValue PostForm "Body") = false) as HAE
    by now apply anyEmpty_false.
  rewrite (handleSMS_saved env r st _ _ _ _ HPF HEX HAE HF).
  cbv zeta. unfold tableAfter, statusOf. cbn [fst snd].
  split; [now destruct (WriteErr env) | reflexivity].
Qed.

Lemma stored_decoded_aux env st a b c :
  cleanField a = true -> cleanField b = true -> cleanField c = true ->
  url.decode a <> "" -> url.decode b <> "" -> url.decode c <> "" ->
  Z.of_nat (String.length (smsForm a b c)) <= http.maxFormSize ->
  Faults env (length (statements (db st))) = None ->
  statusOf (handleSMS env (formPost (smsForm a b c)) st) = Some 200 /\
  tableAfter (handleSMS env (formPost (smsForm a b c)) st) =
    sms_messages (db st) ++
      [{| id := auto_increment (db st); message_sid := url.decode a;
          from_number := url.decode b; body := url.decode c;
          received_at := time.Now (Clock env) |}].
Proof.
  intros Ha Hb Hc Hda Hdb Hdc Hlen HF.
  pose proof (ParseForm_formPost _ Hlen) as HPF.
  rewrite (ParseQuery_smsForm a b c Ha Hb Hc) in HPF.
  destruct (PostFormValue_smsForm (url.decode a) (url.decode b) (url.decode c))
    as (H1 & H2 & H3).
  destruct (primary_fields_stored_aux env (formPost (smsForm a b c)) st _ HPF)
    as (Ht & Hs); rewrite ?H1, ?H2, ?H3; try assumption.
  rewrite H1, H2, H3 in Ht. now split.
Qed.

(** X3. From the bytes of the request to the row: for a form-encoded
    request of at most 10 MiB whose body is
    [MessageSid=a&From=b&Body=c], with no [&] or [;] in [a], [b], [c] and
    every [%] in them followed by two hex digits, [handleSMS] stores the
    query-decoding of [a], [b], [c] (when none of them decodes to the empty
    string and the INSERT succeeds) and replies 200. *)
Theorem form_fields_stored_decoded env st a b c :
  cleanField a = true -> cleanField b = true -> cleanField c = true ->
  url.decode a <> "" -> url.decode b <> "" -> url.decode c <> "" ->
  Z.of_nat (String.length (smsForm a b c)) <= http.maxFormSize ->
  Faults env (length (statements (db st))) = None ->
  let out := handleSMS env (formPost (smsForm a b c)) st in
  statusOf out = Some 200 /\
  tableAfter out =
    sms_messages (db st) ++
      [{| id := auto_increment (db st); message_sid := url.decode a;
          from_number := url.decode b; body := url.decode c;
          received_at := time.Now (Clock env) |}].
Proof.
  intros Ha Hb Hc Hda Hdb Hdc Hlen HF out. subst out.
  now apply stored_decoded_aux.
Qed.

Lemma form_fields_stored_decoded_witness :
  let out := handleSMS (calmEnv 0)
               (formPost "MessageSid=SM%31&From=%2B1555&Body=Hello+there%21")
               emptyWorld in
  statusOf out = Some 200 /\
  tableAfter out =
    [{| id := 1; message_sid := "SM1"; from_number := "+1555";
        body := "Hello there!"; received_at := time.Now 0 |}].
Proof.
  apply (form_fields_stored_decoded (calmEnv 0) emptyWorld
           "SM%31" "%2B1555" "Hello+there%21");
    try reflexivity; vm_compute; discriminate.
Defined.

(** X4. The handler loses nothing of a field: whatever bytes three
    non-empty fields hold, a client that escapes them as [url.QueryEscape]
    does and posts them as [MessageSid=..&From=..&Body=..] (at most 10 MiB)
    finds exactly these bytes in the stored row. *)
Theorem escaped_fields_round_trip env st messageSid from body :
  messageSid <> "" -> from <> "" -> body <> "" ->
  let form := smsForm (urlencode.QueryEscape messageSid) (urlencode.QueryEscape from)
                (urlencode.QueryEscape body) in
  Z.of_nat (String.length form) <= http.maxFormSize ->
  Faults env (length (statements (db st))) = None ->
  let out := handleSMS env (formPost form) st in
  statusOf out = Some 200 /\
  tableAfter out =
    sms_messages (db st) ++
      [{| id := auto_increment (db st); message_sid := messageSid;
          from_number := from; body := body;
          received_at := time.Now (Clock env) |}].
Proof.
  intros H1 H2 H3 form Hlen HF out.
  destruct (stored_decoded_aux env st
              (urlencode.QueryEscape messageSid) (urlencode.QueryEscape from)
              (urlencode.QueryEscape body)) as (Hs & Ht);
    rewrite ?decode_QueryEscape; try apply cleanField_QueryEscape; try assumption.
  subst out form. rewrite !decode_QueryEscape in Ht. now split.
Qed.

Lemma escaped_fields_round_trip_witness :
  let out := handleSMS (calmEnv 0)
               (formPost "MessageSid=SM1&From=%2B1555&Body=a%26b%3Dc%3B+100%25")
               emptyWorld in
  statusOf out = Some 200 /\
  tableAfter out =
    [{| id := 1; message_sid := "SM1"; from_number := "+1555";
        body := "a&b=c; 100%"; received_at := time.Now 0 |}].
Proof.
  apply (escaped_fields_round_trip (calmEnv 0) emptyWorld "SM1" "+1555" "a&b=c; 100%");
    try discriminate; reflexivity.
Defined.

(** ** The fallback, once more *)

(** X5. When the message identifier or the sender is missing from the
    direct fields and the lowercase [body] field holds a value that does
    not parse as a query string (after one leading [?] is removed),
    [handleSMS] answers 400 "Invalid body parameter" rather than "Missing
    required fields"; nothing is sent to the database and the parse error
    is logged under WEBHOOK_INVALID_BODY. *)
Theorem nested_parse_failure_rejected env r st PostForm err :
  http.ParseForm r = (PostForm, None) ->
  orElse (http.PostFormValue PostForm "MessageSid")
         (http.PostFormValue PostForm "messagesid") = "" \/
  orElse (http.PostFormValue PostForm "From")
         (http.PostFormValue PostForm "from") = "" ->
  snd (url.ParseQuery
         (strings.TrimPrefix (http.PostFormValue PostForm "body") "?")) = Some err ->
  let out := handleSMS env r st in
  statusOf out = Some 400 /\
  bodyOf out = "Invalid body parameter" +:+ newline /\
  db (snd out) = db st /\
  log (snd out) =
    log st ++ [TextErr "[WEBHOOK_INVALID_BODY] Failed to parse body parameter: " err].
Proof.
  intros HPF Hmiss Herr out.
  assert (extractParams PostForm = inl err) as HEX.
  { rewrite extractParams_eq. cbv zeta.
    assert (anyEmpty
              (orElse (http.PostFormValue PostForm "MessageSid")
                 (http.PostFormValue PostForm "messagesid"))
              (orElse (http.PostFormValue PostForm "From")
                 (http.PostFormValue PostForm "from"))
              (orElse (http.PostFormValue PostForm "Body")
                 (http.PostFormValue PostForm "body")) = true) as ->
      by (apply anyEmpty_true; tauto).
    destruct (String.eqb (http.PostFormValue PostForm "body") "") eqn:E.
    - apply String.eqb_eq in E. rewrite E in Herr. discriminate Herr.
    - cbn [negb]. destruct (url.ParseQuery _) as [parsed e]. cbn in Herr.
      now subst e. }
  subst out. rewrite (handleSMS_invalid_body env r st _ _ HPF HEX).
  repeat split.
Qed.

Lemma nested_parse_failure_rejected_witness :
  let out := handleSMS (calmEnv 0) (formPost "From=1555&body=50%25+off%3B+today")
               emptyWorld in
  statusOf out = Some 400 /\
  bodyOf out = "Invalid body parameter" +:+ newline /\
  db (snd out) = db emptyWorld /\
  log (snd out) =
    log emptyWorld ++
      [TextErr "[WEBHOOK_INVALID_BODY] Failed to parse body parameter: " ErrSemicolon].
Proof.
  apply (nested_parse_failure_rejected (calmEnv 0)
           (formPost "From=1555&body=50%25+off%3B+today") emptyWorld
           (fst (http.ParseForm (formPost "From=1555&body=50%25+off%3B+today")))
           ErrSemicolon).
  - vm_compute; reflexivity.
  - left. vm_compute; reflexivity.
  - vm_compute; reflexivity.
Defined.

(** X6. First non-empty wins.  Whatever the nested string holds, a
    message identifier or a sender found among the direct fields (provider
    key first, its lowercase variant second) is the one [handleSMS]
    validates; and the body text is always the direct [Body] field or,
    failing that, the whole lowercase [body] field. *)
Theorem direct_fields_take_precedence PostForm messageSID fromNumber body :
  extractParams PostForm = inr (messageSID, fromNumber, body) ->
  let sid := orElse (http.PostFormValue PostForm "MessageSid")
                    (http.PostFormValue PostForm "messagesid") in
  let from := orElse (http.PostFormValue PostForm "From")
                     (http.PostFormValue PostForm "from") in
  (sid <> "" -> messageSID = sid) /\
  (from <> "" -> fromNumber = from) /\
  body = orElse (http.PostFormValue PostForm "Body")
                (http.PostFormValue PostForm "body").
Proof.
  intros HEX sid from.
  split; [|split]; [| |now apply extractParams_body in HEX].
  - intros Hs. revert HEX. rewrite extractParams_eq. cbv zeta. fold sid from.
    destruct (anyEmpty _ _ _); [|now intros [= <- _ _]].
    destruct (negb _); [|now intros [= <- _ _]].
    destruct (url.ParseQuery _) as [parsed [e|]]; [discriminate|].
    intros [= <- _ _]. now apply orElse_nonempty.
  - intros Hf. revert HEX. rewrite extractParams_eq. cbv zeta. fold sid from.
    destruct (anyEmpty _ _ _); [|now intros [= _ <- _]].
    destruct (negb _); [|now intros [= _ <- _]].
    destruct (url.ParseQuery _) as [parsed [e|]]; [discriminate|].
    intros [= _ <- _]. now apply orElse_nonempty.
Qed.

Lemma direct_fields_take_precedence_witness :
  let PostForm : Values :=
    {[ "messagesid" := ["SM1"]; "body" := ["MessageSid=SM2&From=1555&Body=Hi"] ]} in
  http.ParseForm
    (formPost "messagesid=SM1&body=MessageSid%3DSM2%26From%3D1555%26Body%3DHi")
    = (PostForm, None) /\
  extractParams PostForm = inr ("SM1", "1555", "MessageSid=SM2&From=1555&Body=Hi") /\
  "SM1" = orElse (http.PostFormValue PostForm "MessageSid")
                 (http.PostFormValue PostForm "messagesid") /\
  "MessageSid=SM2&From=1555&Body=Hi" =
    orElse (http.PostFormValue PostForm "Body") (http.PostFormValue PostForm "body").
Proof.
  cbv zeta.
  assert (extractParams
            {[ "messagesid" := ["SM1"]; "body" := ["MessageSid=SM2&From=1555&Body=Hi"] ]}
          = inr ("SM1", "1555", "MessageSid=SM2&From=1555&Body=Hi")) as HEX
    by (vm_compute; reflexivity).
  destruct (direct_fields_take_precedence _ _ _ _ HEX) as (H1 & _ & H3).
  split; [vm_compute; reflexivity|]. split; [exact HEX|].
  split; [apply H1; vm_compute; discriminate | exact H3].
Defined.

(** ** What the reply tells the provider *)

Lemma handleSMS_status env r st :
  statusOf (handleSMS env r st) =
  match validated r with
  | Some _ =>
      if Faults env (length (statements (db st))) is None then Some 200 else Some 500
  | None => Some 400
  end.
Proof.
  unfold validated.
  handleSMS_exits env r st; reflexivity.
Qed.

(** X7. The status of the reply of [handleSMS] is 200, 400 or 500, and it
    tells what happened: 200 exactly when a row was written; 400 exactly
    when the request did not pass validation, and then nothing was sent to
    the database; 500 exactly when it passed and the driver refused the
    INSERT. *)
Theorem status_tells_outcome env r st :
  let out := handleSMS env r st in
  (statusOf out = Some 200 \/ statusOf out = Some 400 \/ statusOf out = Some 500) /\
  (statusOf out = Some 200 <-> rowWritten env r st) /\
  (statusOf out = Some 400 <-> validated r = None) /\
  (statusOf out = Some 400 -> db (snd out) = db st) /\
  (statusOf out = Some 500 <->
     is_Some (validated r) /\ Faults env (length (statements (db st))) <> None).
Proof.
  cbv zeta. unfold rowWritten, tableAfter.
  rewrite handleSMS_status, handleSMS_db.
  destruct (validated r) as [[[a b] c]|].
  - rewrite Exec_insert_table.
    destruct (Faults env _) as [e|].
    + split; [tauto|]. split; [|split; [|split]].
      * split; [discriminate|]. intros [row Hrow]. now apply app_singleton_neq in Hrow.
      * split; discriminate.
      * discriminate.
      * split; [intros _; split; [eauto | discriminate] | reflexivity].
    + split; [tauto|]. split; [|split; [|split]].
      * split; [eauto | reflexivity].
      * split; discriminate.
      * discriminate.
      * split; [discriminate | intros [_ H]; contradiction].
  - split; [tauto|]. split; [|split; [|split]].
    + split; [discriminate|]. intros [row Hrow]. now apply app_singleton_neq in Hrow.
    + split; reflexivity.
    + reflexivity.
    + split; [discriminate | intros [[x [=]] _]].
Qed.

Lemma status_tells_outcome_witness :
  let r := formPost "MessageSid=SM123&From=%2B15551234567&Body=Hello" in
  rowWritten (calmEnv 0) r emptyWorld /\
  db (snd (handleSMS (calmEnv 0) (formPost "MessageSid=SM123") emptyWorld))
    = db emptyWorld.
Proof.
  split.
  - apply (status_tells_outcome (calmEnv 0)
             (formPost "MessageSid=SM123&From=%2B15551234567&Body=Hello") emptyWorld).
    vm_compute; reflexivity.
  - apply (status_tells_outcome (calmEnv 0) (formPost "MessageSid=SM123") emptyWorld).
    vm_compute; reflexivity.
Defined.

(** ** The log *)

(** X8. One log entry per request.  [handleSMS] never drops or rewrites
    an earlier entry, and each run makes exactly one [log.Printf] call, or
    two: on the 200 path the entry "Saved SMS from <sender>: <body>",
    followed by the WEBHOOK_RESPONSE_ERROR entry exactly when writing the
    acknowledgment failed; on every other path one [logError] entry and
    nothing else.  (An entry is one call: it prints as several lines when a
    logged field holds a line feed.)  The variant [smsHandler] never
    logs. *)
Theorem one_log_entry_per_request env r st :
  let out := handleSMS env r st in
  (statusOf out = Some 200 ->
     exists messageSID fromNumber body,
       validated r = Some (messageSID, fromNumber, body) /\
       log (snd out) =
         log st ++
           Text ("Saved SMS from " +:+ fromNumber +:+ ": " +:+ body) ::
           match WriteErr env with
           | Some err =>
               [TextErr "[WEBHOOK_RESPONSE_ERROR] Error writing TwiML response: " err]
           | None => []
           end) /\
  (statusOf out <> Some 200 ->
     exists errorType message,
       In errorType ["WEBHOOK_INVALID_FORM"; "WEBHOOK_INVALID_BODY";
                     "WEBHOOK_NO_INPUT"; "DB_SAVE_ERROR"] /\
       log (snd out) = log st ++ [errorLine errorType message]) /\
  log (snd (smsHandler env r st)) = log st.
Proof.
  cbv zeta. split; [|split].
  - rewrite handleSMS_status. unfold validated.
    handleSMS_exits env r st; try discriminate.
    intros _. eexists _, _, _. split; [reflexivity|].
    cbv zeta. destruct (WriteErr env) as [e|]; [|reflexivity].
    cbn. now rewrite <- app_assoc.
  - rewrite handleSMS_status. unfold validated.
    handleSMS_exits env r st; try contradiction; intros _;
      eexists _, _; (split; [|reflexivity]); cbn [In]; tauto.
  - unfold smsHandler.
    destruct (http.ParseForm r) as [pf [e|]]; [reflexivity|].
    destruct (_ || _ || _); [reflexivity|].
    destruct (_ || _ || _); [reflexivity|].
    destruct (Exec_insert _ _ _ _ _ _) as [d [e|]]; reflexivity.
Qed.

Lemma one_log_entry_per_request_witness :
  log (snd (handleSMS
              {| Clock := 7; Faults := fun _ => None;
                 WriteErr := Some (ErrWrite "broken pipe") |}
              (formPost "MessageSid=SM123&From=%2B15551234567&Body=Hello")
              emptyWorld)) =
    [Text "Saved SMS from +15551234567: Hello";
     TextErr "[WEBHOOK_RESPONSE_ERROR] Error writing TwiML response: "
       (ErrWrite "broken pipe")].
Proof.
  destruct (one_log_entry_per_request
              {| Clock := 7; Faults := fun _ => None;
                 WriteErr := Some (ErrWrite "broken pipe") |}
              (formPost "MessageSid=SM123&From=%2B15551234567&Body=Hello")
              emptyWorld) as (H200 & _ & _).
  destruct H200 as (a & b & c & Hv & Hlog); [vm_compute; reflexivity|].
  rewrite Hlog.
  assert (validated (formPost "MessageSid=SM123&From=%2B15551234567&Body=Hello")
          = Some ("SM123", "+15551234567", "Hello")) as Hv'
    by (vm_compute; reflexivity).
  rewrite Hv' in Hv. injection Hv as <- <- <-. reflexivity.
Defined.

(** X9. A failure to write the acknowledgment undoes nothing: two runs of
    [handleSMS] that differ only in whether the final [w.Write] fails hand
    the same reply to the writer and leave the same database; only the log
    differs. *)
Theorem write_failure_only_logged env1 env2 r st :
  Clock env1 = Clock env2 ->
  Faults env1 (length (statements (db st))) = Faults env2 (length (statements (db st))) ->
  fst (handleSMS env1 r st) = fst (handleSMS env2 r st) /\
  db (snd (handleSMS env1 r st)) = db (snd (handleSMS env2 r st)).
Proof.
  intros HC HF. split.
  - apply handleSMS_reply_invariant. now rewrite HF.
  - rewrite !handleSMS_db. destruct (validated r) as [[[a b] c]|]; [|reflexivity].
    unfold Exec_insert. now rewrite HC, HF.
Qed.

(** A run in which the connection is gone when the acknowledgment is
    written. *)
Lemma write_failure_only_logged_witness :
  let r := formPost "MessageSid=SM123&From=%2B15551234567&Body=Hello" in
  let hungUp := {| Clock := 7; Faults := fun _ => None;
                   WriteErr := Some (ErrWrite "broken pipe") |} in
  fst (handleSMS hungUp r emptyWorld) = fst (handleSMS (calmEnv 7) r emptyWorld) /\
  db (snd (handleSMS hungUp r emptyWorld)) = db (snd (handleSMS (calmEnv 7) r emptyWorld)).
Proof.
  apply (write_failure_only_logged
           {| Clock := 7; Faults := fun _ => None; WriteErr := Some (ErrWrite "broken pipe") |}
           (calmEnv 7)); reflexivity.
Defined.

(** ** The two handlers side by side *)

Lemma accepted_Some r a b c :
  accepted r = Some (a, b, c) ->
  exists PostForm,
    http.ParseForm r = (PostForm, None) /\
    a = http.PostFormValue PostForm "MessageSid" /\
    b = http.PostFormValue PostForm "From" /\
    c = http.PostFormValue PostForm "Body" /\
    anyEmpty a b c = false /\ tooLong a b c = false.
Proof.
  unfold accepted.
  destruct (http.ParseForm r) as [pf [e|]]; [discriminate|]. cbv zeta.
  destruct (anyEmpty _ _ _) eqn:HAE; [discriminate|].
  destruct (tooLong _ _ _) eqn:HTL; [discriminate|].
  intros [= <- <- <-]. exists pf. repeat split; try assumption.
  apply anyEmpty_false in HAE. apply anyEmpty_false. tauto.
Qed.

Lemma smsHandler_status env r st :
  statusOf (smsHandler env r st) =
  match accepted r with
  | Some _ =>
      if Faults env (length (statements (db st))) is None then Some 200 else Some 500
  | None => Some 400
  end.
Proof.
  unfold smsHandler, accepted, anyEmpty, tooLong.
  destruct (http.ParseForm r) as [pf [e|]]; [reflexivity|].
  destruct (_ || _ || _); [reflexivity|].
  destruct (_ || _ || _); [reflexivity|].
  unfold Exec_insert. now destruct (Faults env _).
Qed.

(** X10. The variant is the stricter handler.  Every request [smsHandler]
    lets through to its INSERT passes the validation of [handleSMS] with
    the same three fields; on the same process state both send an INSERT
    with these fields, give the same status, and leave tables that agree
    in every column of every row but the time zone of [received_at]. *)
Theorem smsHandler_accepts_less env r st messageSid from body :
  accepted r = Some (messageSid, from, body) ->
  validated r = Some (messageSid, from, body) /\
  statusOf (smsHandler env r st) = statusOf (handleSMS env r st) /\
  statementsAfter (smsHandler env r st) =
    statements (db st) ++
      [Insert messageSid from body (time.toUTC (time.Now (Clock env)))] /\
  statementsAfter (handleSMS env r st) =
    statements (db st) ++ [Insert messageSid from body (time.Now (Clock env))] /\
  map (fun row => (id row, fieldsOf row, time.instant (received_at row)))
      (tableAfter (smsHandler env r st)) =
  map (fun row => (id row, fieldsOf row, time.instant (received_at row)))
      (tableAfter (handleSMS env r st)).
Proof.
  intros Ha.
  assert (validated r = Some (messageSid, from, body)) as Hv.
  { apply accepted_Some in Ha as (pf & HPF & -> & -> & -> & HAE & _).
    apply validated_Some. exists pf. split; [exact HPF|]. split; [|exact HAE].
    apply anyEmpty_false in HAE as (H1 & H2 & H3).
    now apply extractParams_primary. }
  split; [exact Hv|].
  unfold statementsAfter, tableAfter.
  rewrite smsHandler_status, handleSMS_status, smsHandler_db, handleSMS_db, Ha, Hv.
  rewrite !Exec_insert_statements, !Exec_insert_table.
  repeat split. destruct (Faults env _); [reflexivity|].
  now rewrite !map_app.
Qed.

Lemma smsHandler_accepts_less_witness :
  let r := formPost "MessageSid=SM123&From=%2B15551234567&Body=Hello" in
  validated r = Some ("SM123", "+15551234567", "Hello") /\
  statusOf (smsHandler (calmEnv 7) r emptyWorld) = Some 200 /\
  tableAfter (smsHandler (calmEnv 7) r emptyWorld) =
    [{| id := 1; message_sid := "SM123"; from_number := "+15551234567";
        body := "Hello"; received_at := time.toUTC (time.Now 7) |}].
Proof.
  pose (r := formPost "MessageSid=SM123&From=%2B15551234567&Body=Hello").
  assert (accepted r = Some ("SM123", "+15551234567", "Hello")) as Ha
    by (vm_compute; reflexivity).
  destruct (smsHandler_accepts_less (calmEnv 7) r emptyWorld _ _ _ Ha) as (Hv & _).
  split; [exact Hv|]. split; vm_compute; reflexivity.
Defined.

(** X11. The reply of [smsHandler] tells what happened, and a rejection
    leaves no trace: the status is 200 exactly when the request was let
    through and the driver accepted the INSERT, 500 exactly when it was let
    through and the driver refused, and 400 exactly when it was not let
    through; in that case the process state is untouched. *)
Theorem smsHandler_status_tells_outcome env r st :
  let out := smsHandler env r st in
  (statusOf out = Some 200 <->
     is_Some (accepted r) /\ Faults env (length (statements (db st))) = None) /\
  (statusOf out = Some 500 <->
     is_Some (accepted r) /\ Faults env (length (statements (db st))) <> None) /\
  (statusOf out = Some 400 <-> accepted r = None) /\
  (statusOf out = Some 400 -> snd out = st) /\
  (statusOf out = Some 200 <->
     exists row, tableAfter out = sms_messages (db st) ++ [row]).
Proof.
  cbv zeta. unfold tableAfter. rewrite smsHandler_status, smsHandler_db.
  assert (accepted r = None -> snd (smsHandler env r st) = st) as Hst.
  { unfold accepted, smsHandler, anyEmpty, tooLong.
    destruct (http.ParseForm r) as [pf [e|]]; [reflexivity|]. cbv zeta.
    destruct (_ || _ || _); [reflexivity|].
    destruct (_ || _ || _); [reflexivity|discriminate]. }
  destruct (accepted r) as [[[a b] c]|].
  - rewrite Exec_insert_table. destruct (Faults env _) as [e|].
    + split; [|split; [|split; [|split]]].
      * split; [discriminate | intros [_ [=]]].
      * split; [intros _; split; [eauto | discriminate] | reflexivity].
      * split; discriminate.
      * discriminate.
      * split; [discriminate|]. intros [row Hrow]. now apply app_singleton_neq in Hrow.
    + split; [|split; [|split; [|split]]].
      * split; [intros _; split; [eauto | reflexivity] | reflexivity].
      * split; [discriminate | intros [_ H]; contradiction].
      * split; discriminate.
      * discriminate.
      * split; [eauto | reflexivity].
  - split; [|split; [|split; [|split]]].
    + split; [discriminate | intros [[x [=]] _]].
    + split; [discriminate | intros [[x [=]] _]].
    + split; reflexivity.
    + intros _. now apply Hst.
    + split; [discriminate|]. intros [row Hrow]. now apply app_singleton_neq in Hrow.
Qed.

Lemma smsHandler_status_tells_outcome_witness :
  snd (smsHandler (calmEnv 0) (formPost "messagesid=SM1&from=1555&body=Hi") emptyWorld)
    = emptyWorld.
Proof.
  apply (smsHandler_status_tells_outcome (calmEnv 0)
           (formPost "messagesid=SM1&from=1555&body=Hi") emptyWorld).
  vm_compute; reflexivity.
Defined.

(** ** Any number of requests *)

Lemma serve_invariant (h : Handler) (P : World -> Prop) :
  (forall env r st, P st -> P (snd (h env r st))) ->
  forall runs st, P st -> P (serve h runs st).
Proof.
  intros Hstep runs. induction runs as [|[env r] runs IH]; intros st HP; [exact HP|].
  cbn [serve]. apply IH. now apply Hstep.
Qed.

Lemma length_pos (s : string) : s <> "" -> (0 < String.length s)%nat.
Proof. destruct s; [contradiction | cbn; lia]. Qed.

(** X12. Whatever requests arrive, every row [smsHandler] adds fits the
    columns: if all rows of [sms_messages] have a non-empty message
    identifier of at most 50 bytes, a non-empty sender of at most 15 and a
    non-empty body of at most 1600, the same holds after the variant has
    served any sequence of requests. *)
Theorem smsHandler_rows_fit_columns runs st :
  Forall fitsColumns (sms_messages (db st)) ->
  Forall fitsColumns (sms_messages (db (serve smsHandler runs st))).
Proof.
  apply (serve_invariant smsHandler
           (fun st => Forall fitsColumns (sms_messages (db st)))).
  clear runs st. intros env r st Hfit.
  rewrite smsHandler_db.
  destruct (accepted r) as [[[a b] c]|] eqn:Ha; [|exact Hfit].
  rewrite Exec_insert_table. destruct (Faults env _); [exact Hfit|].
  apply Forall_app. split; [exact Hfit|]. constructor; [|constructor].
  apply accepted_Some in Ha as (pf & _ & _ & _ & _ & HAE & HTL).
  apply anyEmpty_false in HAE as (H1 & H2 & H3).
  unfold tooLong in HTL. rewrite !orb_false_iff, !Z.ltb_ge in HTL.
  destruct HTL as ((L1 & L2) & L3).
  unfold fitsColumns. cbn [message_sid from_number body].
  apply length_pos in H1, H2, H3. lia.
Qed.

Lemma smsHandler_rows_fit_columns_witness :
  Forall fitsColumns
    (sms_messages
       (db (serve smsHandler
              [(calmEnv 1, formPost "MessageSid=SM1&From=1555&Body=Hi");
               (calmEnv 2, formPost ("MessageSid=" +:+ longSid +:+ "&From=1555&Body=Hi"));
               (calmEnv 3, formPost "MessageSid=SM3&From=1555&Body=Ho")]
              emptyWorld))).
Proof.
  apply (smsHandler_rows_fit_columns _ emptyWorld). constructor.
Defined.

Lemma handleSMS_step_table env r st :
  (db (snd (handleSMS env r st)) = db st) \/
  (exists a b c,
     statements (db (snd (handleSMS env r st))) =
       statements (db st) ++ [Insert a b c (time.Now (Clock env))] /\
     (sms_messages (db (snd (handleSMS env r st))) = sms_messages (db st) \/
      exists row,
        sms_messages (db (snd (handleSMS env r st))) = sms_messages (db st) ++ [row] /\
        complete row /\ insertOf row = Insert a b c (time.Now (Clock env)))).
Proof.
  rewrite handleSMS_db.
  destruct (validated r) as [[[a b] c]|] eqn:Hv; [right|now left].
  exists a, b, c. rewrite Exec_insert_statements, Exec_insert_table.
  split; [reflexivity|].
  destruct (Faults env _); [now left|right].
  eexists. split; [reflexivity|].
  apply validated_Some in Hv as (pf & _ & _ & HAE).
  apply anyEmpty_false in HAE. now split.
Qed.

(** X13. The table is append-only and never holds a partial record.
    After [handleSMS] has served any sequence of requests, the table is the
    table before followed by new rows, at most one per request; no new row
    has an empty column; and every new row was written by an INSERT that
    the handler sent during these requests, of which there is at most one
    per request. *)
Theorem table_is_append_only runs st :
  let st' := serve handleSMS runs st in
  exists rows stmts,
    sms_messages (db st') = sms_messages (db st) ++ rows /\
    statements (db st') = statements (db st) ++ stmts /\
    (length rows <= length stmts <= length runs)%nat /\
    Forall complete rows /\
    Forall (fun row => In (insertOf row) stmts) rows.
Proof.
  cbv zeta. revert st. induction runs as [|[env r] runs IH]; intros st.
  - exists [], []. cbn. rewrite !app_nil_r. repeat split; try lia; constructor.
  - cbn [serve]. destruct (IH (snd (handleSMS env r st))) as
      (rows & stmts & Ht & Hs & Hlen & Hc & Hin).
    destruct (handleSMS_step_table env r st) as [Hsame | (a & b & c & Hst & Hrow)].
    + exists rows, stmts. rewrite Ht, Hs, Hsame. cbn [length].
      repeat split; try lia; assumption.
    + destruct Hrow as [Hrow | (row & Hrow & Hcomp & Hins)].
      * exists rows, (Insert a b c (time.Now (Clock env)) :: stmts).
        rewrite Ht, Hs, Hrow, Hst, <- app_assoc. cbn [length app].
        repeat split; try lia; [assumption|].
        eapply Forall_impl; [exact Hin|]. intros x Hx. now right.
      * exists (row :: rows), (Insert a b c (time.Now (Clock env)) :: stmts).
        rewrite Ht, Hs, Hrow, Hst, <- !app_assoc. cbn [length app].
        repeat split; try lia.
        -- now constructor.
        -- constructor; [left; now rewrite Hins|].
           eapply Forall_impl; [exact Hin|]. intros x Hx. now right.
Qed.

(** ** Start-up *)

Lemma configured_spec h :
  configured h <->
  String.eqb (os.Getenv (Environ h) "DB_USERNAME") ""
  || String.eqb (os.Getenv (Environ h) "DB_PASSWORD") ""
  || String.eqb (os.Getenv (Environ h) "DB_HOST") ""
  || String.eqb (os.Getenv (Environ h) "DB_PORT") ""
  || String.eqb (os.Getenv (Environ h) "DB_NAME") ""
  || String.eqb (os.Getenv (Environ h) "LISTEN_PORT") ""
  || String.eqb (os.Getenv (Environ h) "CERT_FILE") ""
  || String.eqb (os.Getenv (Environ h) "KEY_FILE") "" = false.
Proof.
  unfold configured. rewrite !Forall_cons, Forall_nil.
  rewrite !orb_false_iff, !String.eqb_neq. tauto.
Qed.

(** [main], with its tests named. *)
Lemma main_eq h :
  main h =
  match DotenvErr h with
  | Some err =>
      [Logged (errorLine "STARTUP_ERROR" (Sprintf_v "Error loading .env file: " err));
       OsExit 1]
  | None =>
      if String.eqb (os.Getenv (Environ h) "DB_USERNAME") ""
         || String.eqb (os.Getenv (Environ h) "DB_PASSWORD") ""
         || String.eqb (os.Getenv (Environ h) "DB_HOST") ""
         || String.eqb (os.Getenv (Environ h) "DB_PORT") ""
         || String.eqb (os.Getenv (Environ h) "DB_NAME") ""
         || String.eqb (os.Getenv (Environ h) "LISTEN_PORT") ""
         || String.eqb (os.Getenv (Environ h) "CERT_FILE") ""
         || String.eqb (os.Getenv (Environ h) "KEY_FILE") ""
      then [Logged (errorLine "CONFIG_ERROR" (Text "Missing required environment variables"));
            OsExit 1]
      else
        SqlOpen (dsnOf h) ::
        match OpenErr h (dsnOf h) with
        | Some err =>
            [Logged (errorLine "DB_CONNECTION_ERROR"
                       (Sprintf_v "Failed to connect to DB: " err));
             OsExit 1]
        | None =>
            DbPing ::
            match PingErr h with
            | Some err =>
                [Logged (errorLine "DB_PING_ERROR"
                           (Sprintf_v "Database ping failed: " err));
                 OsExit 1]
            | None =>
                StatFile (os.Getenv (Environ h) "CERT_FILE") ::
                match Stat h (os.Getenv (Environ h) "CERT_FILE") with
                | os.NotExist =>
                    [Logged (errorLine "CONFIG_ERROR"
                               (Text ("Certificate file not found: "
                                        +:+ os.Getenv (Environ h) "CERT_FILE")));
                     OsExit 1]
                | _ =>
                    StatFile (os.Getenv (Environ h) "KEY_FILE") ::
                    match Stat h (os.Getenv (Environ h) "KEY_FILE") with
                    | os.NotExist =>
                        [Logged (errorLine "CONFIG_ERROR"
                                   (Text ("Key file not found: "
                                            +:+ os.Getenv (Environ h) "KEY_FILE")));
                         OsExit 1]
                    | _ =>
                        Logged (Text ("Starting HTTPS server on port "
                                        +:+ os.Getenv (Environ h) "LISTEN_PORT")) ::
                        ListenAndServeTLS (":" +:+ os.Getenv (Environ h) "LISTEN_PORT")
                          (os.Getenv (Environ h) "CERT_FILE")
                          (os.Getenv (Environ h) "KEY_FILE") ::
                        match ListenErr h with
                        | Some err =>
                            [Logged (errorLine "SERVER_ERROR"
                                       (Sprintf_v "Failed to start HTTPS server: " err));
                             OsExit 1]
                        | None => [DbClose]
                        end
                    end
                end
            end
        end
  end.
Proof. reflexivity. Qed.

(** Splits a goal about [main h] along the tests of [main]. *)
Ltac main_cases h :=
  rewrite (main_eq h);
  let Hcfg := fresh "Hcfg" in
  destruct (DotenvErr h) as [?|] eqn:?;
  [ | pose proof (configured_spec h) as Hcfg;
      destruct (_ || _ || _ || _ || _ || _ || _ || _) eqn:?;
      [ | destruct (OpenErr h (dsnOf h)) as [?|] eqn:?;
          [ | destruct (PingErr h) as [?|] eqn:?;
              [ | destruct (Stat h (os.Getenv (Environ h) "CERT_FILE")) eqn:?;
                  destruct (Stat h (os.Getenv (Environ h) "KEY_FILE")) eqn:?;
                  destruct (ListenErr h) as [?|] eqn:? ] ] ] ].

(** X15. [main] starts the HTTPS server exactly when the .env file
    loaded, all eight variables are set and non-empty, the database opened
    and answered the ping, and neither the certificate file nor the key
    file is reported missing; it then listens on [":" + LISTEN_PORT] with
    these two files.  A file whose [os.Stat] fails for another reason than
    "does not exist" passes the check. *)
Theorem main_listens_iff h addr certFile keyFile :
  In (ListenAndServeTLS addr certFile keyFile) (main h) <->
  ready h /\
  addr = ":" +:+ os.Getenv (Environ h) "LISTEN_PORT" /\
  certFile = os.Getenv (Environ h) "CERT_FILE" /\
  keyFile = os.Getenv (Environ h) "KEY_FILE".
Proof.
  unfold ready. main_cases h; cbn [In];
    try (split; [intros H; repeat (destruct H as [H|H]; try discriminate H); try contradiction
                | intros ((H1 & H2 & H3 & H4 & H5 & H6) & _);
                  first [ discriminate
                        | contradiction
                        | apply Hcfg in H2; discriminate ]]);
    try (split;
         [ intros H; repeat (destruct H as [H|H]; try discriminate H); try contradiction;
           injection H as <- <- <-;
           repeat split; try reflexivity; try discriminate; now apply Hcfg
         | intros (_ & -> & -> & ->); right; right; right; right; right; now left ]).
Qed.

Lemma main_listens_iff_witness :
  In (ListenAndServeTLS ":8443" "cert.pem" "key.pem")
     (main (readyHost (Some (ErrDriver "bind: address already in use")))).
Proof.
  apply (main_listens_iff (readyHost (Some (ErrDriver "bind: address already in use")))).
  repeat split; try discriminate.
  unfold configured. repeat constructor; vm_compute; discriminate.
Defined.

(** X16. [main] contacts the database only with a complete
    configuration: [sql.Open] is called exactly when the .env file loaded
    and all eight variables are non-empty (the TLS ones included), always
    with the data source name
    [user:password@tcp(host:port)/name?parseTime=true], and nothing is
    logged before it. *)
Theorem database_opened_iff_configured h dsn :
  In (SqlOpen dsn) (main h) <->
  DotenvErr h = None /\ configured h /\ dsn = dsnOf h /\
  exists rest, main h = SqlOpen (dsnOf h) :: rest.
Proof.
  main_cases h; cbn [In];
    try (split; [intros H; repeat (destruct H as [H|H]; try discriminate H); try contradiction
                | intros (H1 & H2 & H3 & H4);
                  first [ discriminate | apply Hcfg in H2; discriminate ]]);
    try (split;
         [ intros H; repeat (destruct H as [H|H]; try discriminate H); try contradiction;
           injection H as <-;
           repeat split; try reflexivity; [now apply Hcfg | eexists; reflexivity]
         | intros (_ & _ & -> & _); now left ]).
Qed.

Lemma database_opened_iff_configured_witness :
  In (SqlOpen "sms:secret@tcp(localhost:3306)/smsdb?parseTime=true")
     (main (readyHost None)).
Proof.
  apply (database_opened_iff_configured (readyHost None)).
  split; [reflexivity|]. split; [|split; [reflexivity | eexists; reflexivity]].
  unfold configured. repeat constructor; vm_compute; discriminate.
Defined.

(** X17. The deferred [db.Close()] does not run.  As
    [ListenAndServeTLS] returns an error whenever it returns, every run of
    [main] ends in [os.Exit(1)], which skips deferred calls: the database
    handle is never closed, also when it had been opened. *)
Theorem main_never_closes_db h :
  ListenErr h <> None ->
  last (main h) = Some (OsExit 1) /\ ~ In DbClose (main h).
Proof.
  intros HL. main_cases h; try contradiction; cbn [In];
    (split; [reflexivity|]);
    intros H; repeat (destruct H as [H|H]; try discriminate H); contradiction.
Qed.

Lemma main_never_closes_db_witness :
  let h := readyHost (Some (ErrDriver "bind: address already in use")) in
  In (SqlOpen (dsnOf h)) (main h) /\
  last (main h) = Some (OsExit 1) /\ ~ In DbClose (main h).
Proof.
  split; [vm_compute; tauto|].
  apply (main_never_closes_db
           (readyHost (Some (ErrDriver "bind: address already in use")))).
  discriminate.
Defined.

(** X18. A failed start says why, once.  When something the server needs
    is not in place, [main] logs exactly one line, tagged with its error
    type, and exits with status 1 right after it; it never reaches
    [ListenAndServeTLS]. *)
Theorem failed_start_logs_once h :
  ~ ready h ->
  exists before line,
    main h = before ++ [Logged line; OsExit 1] /\
    Forall (fun e => isLogged e = false) before /\
    (forall addr certFile keyFile,
       ~ In (ListenAndServeTLS addr certFile keyFile) before) /\
    exists errorType message, line = errorLine errorType message.
Proof.
  unfold ready. intros Hnot.
  main_cases h;
    try (exfalso; apply Hnot; repeat split;
         first [ reflexivity | discriminate | now apply Hcfg ]);
    (eexists _, _; split;
     [ match goal with
       | |- [?a; ?b] = _ => exact (eq_refl ([] ++ [a; b]))
       | |- [?x; ?a; ?b] = _ => exact (eq_refl ([x] ++ [a; b]))
       | |- [?x; ?y; ?a; ?b] = _ => exact (eq_refl ([x; y] ++ [a; b]))
       | |- [?x; ?y; ?z; ?a; ?b] = _ => exact (eq_refl ([x; y; z] ++ [a; b]))
       | |- [?x; ?y; ?z; ?u; ?a; ?b] = _ => exact (eq_refl ([x; y; z; u] ++ [a; b]))
       end
     | split; [repeat constructor|];
       split; [intros a0 c0 k0 H; cbn [In] in H;
               repeat (destruct H as [H|H]; try discriminate H); contradiction|];
       eexists _, _; reflexivity ]).
Qed.

Lemma failed_start_logs_once_witness :
  main {| DotenvErr := None;
          Environ := {[ "DB_USERNAME" := "sms"; "DB_PASSWORD" := "secret" ]};
          OpenErr := fun _ => None; PingErr := None;
          Stat := fun _ => os.Found; ListenErr := None |}
  = [Logged (Text "[CONFIG_ERROR] Missing required environment variables"); OsExit 1].
Proof.
  destruct (failed_start_logs_once
              {| DotenvErr := None;
                 Environ := {[ "DB_USERNAME" := "sms"; "DB_PASSWORD" := "secret" ]};
                 OpenErr := fun _ => None; PingErr := None;
                 Stat := fun _ => os.Found; ListenErr := None |})
    as (before & line & Hmain & _).
  - intros (_ & Hc & _). unfold configured in Hc.
    rewrite !Forall_cons in Hc. destruct Hc as (_ & _ & Hc & _).
    now apply Hc.
  - reflexivity.
Defined.

(** X19. The [main] of the variant checks less and says nothing.  It
    opens the database as soon as the .env file has loaded, whatever the
    database variables hold (the data source name has no [parseTime]); it
    starts the server exactly when moreover the database opened and
    CERT_FILE, KEY_FILE and LISTEN_PORT are non-empty; and it never logs,
    never pings the database and never looks whether the two files
    exist. *)
Theorem variant_main_checks h :
  (forall dsn,
     In (SqlOpen dsn) (variant.main h) <->
     DotenvErr h = None /\ dsn = variantDsnOf h) /\
  (forall addr certFile keyFile,
     In (ListenAndServeTLS addr certFile keyFile) (variant.main h) <->
     DotenvErr h = None /\ OpenErr h (variantDsnOf h) = None /\
     os.Getenv (Environ h) "CERT_FILE" <> "" /\
     os.Getenv (Environ h) "KEY_FILE" <> "" /\
     os.Getenv (Environ h) "LISTEN_PORT" <> "" /\
     addr = ":" +:+ os.Getenv (Environ h) "LISTEN_PORT" /\
     certFile = os.Getenv (Environ h) "CERT_FILE" /\
     keyFile = os.Getenv (Environ h) "KEY_FILE") /\
  Forall (fun e => match e with
                   | Logged _ | DbPing | StatFile _ => False
                   | _ => True
                   end) (variant.main h).
Proof.
  unfold variant.main. fold (variantDsnOf h).
  destruct (DotenvErr h) as [e|].
  { split; [|split].
    - intros dsn. cbn [In]. split; [intros [H|[]]; discriminate H | intros [[=] _]].
    - intros a c k. cbn [In]. split; [intros [H|[]]; discriminate H | intros [[=] _]].
    - repeat constructor. }
  cbv zeta.
  destruct (OpenErr h (variantDsnOf h)) as [e|].
  { split; [|split].
    - intros dsn. cbn [In]. split.
      + intros [H|[H|[]]]; [injection H as <-; now split | discriminate H].
      + intros [_ ->]. now left.
    - intros a c k. cbn [In]. split.
      + intros [H|[H|[]]]; discriminate H.
      + intros (_ & [=] & _).
    - repeat constructor. }
  destruct (String.eqb (os.Getenv (Environ h) "CERT_FILE") "") eqn:Hc;
    [|destruct (String.eqb (os.Getenv (Environ h) "KEY_FILE") "") eqn:Hk;
      [|destruct (String.eqb (os.Getenv (Environ h) "LISTEN_PORT") "") eqn:Hp]];
    cbn [orb].
  1-3: split; [|split]; [| |repeat constructor].
  1,3,5: intros dsn; cbn [In]; split;
    [ intros [H|[H|[]]]; [injection H as <-; now split | discriminate H]
    | intros [_ ->]; now left ].
  1-3: intros a c k; cbn [In]; split;
    [ intros [H|[H|[]]]; discriminate H |].
  - apply String.eqb_eq in Hc. intros (_ & _ & H & _). contradiction.
  - apply String.eqb_eq in Hk. intros (_ & _ & _ & H & _). contradiction.
  - apply String.eqb_eq in Hp. intros (_ & _ & _ & _ & H & _). contradiction.
  - apply String.eqb_neq in Hc, Hk, Hp.
    split; [|split].
    + intros dsn. split.
      * intros [H|[H|H]]; [injection H as <-; now split | discriminate H |].
        destruct (ListenErr h); cbn [In] in H; destruct H as [H|[]]; discriminate H.
      * intros [_ ->]. now left.
    + intros a c k. split.
      * intros [H|[H|H]]; [discriminate H | injection H as <- <- <-; now repeat split |].
        destruct (ListenErr h); cbn [In] in H; destruct H as [H|[]]; discriminate H.
      * intros (_ & _ & _ & _ & _ & -> & -> & ->). right. now left.
    + destruct (ListenErr h); repeat constructor.
Qed.

Lemma variant_main_checks_witness :
  let h := {| DotenvErr := None;
              Environ := {[ "LISTEN_PORT" := "8443"; "CERT_FILE" := "cert.pem";
                            "KEY_FILE" := "key.pem" ]};
              OpenErr := fun _ => None; PingErr := None;
              Stat := fun _ => os.NotExist; ListenErr := None |} in
  In (SqlOpen ":@tcp(:)/") (variant.main h) /\
  In (ListenAndServeTLS ":8443" "cert.pem" "key.pem") (variant.main h).
Proof.
  cbv zeta. split.
  - apply variant_main_checks. split; reflexivity.
  - apply variant_main_checks. repeat split; discriminate.
Defined.
